(** * Image upload gallery: the page logic and the two API routes

    A shallow embedding of
    - the gallery page component (state flags, [fetchImages],
      [uploadToCloudinary], [handleFileUpload], [filteredImages],
      [formatFileSize]),
    - the upload route [POST /api/upload],
    - the list route [GET /api/images],
    followed by the properties established about them.

    JavaScript strings are modelled by [string]; byte counts, dimensions and
    result counts by [N]; a value of type [T | undefined] or [T | null] by
    [option T].  A [Date] built from a timestamp string is kept as that
    string. *)

From Stdlib Require Import String Ascii List NArith Bool Lia DecimalString.
Import ListNotations.

Local Open Scope string_scope.
Local Open Scope N_scope.

(* ================================================================== *)
(** ** JavaScript primitives used by the sources *)
(* ================================================================== *)

Module JS.

(** Truthiness of a string: every string but the empty one. *)
Definition truthy (s : string) : bool :=
  match s with
  | EmptyString => false
  | String _ _ => true
  end.

(** [a || b] where [a] is a possibly missing string and [b] a string. *)
Definition or_else (a : option string) (b : string) : string :=
  match a with
  | Some s => if truthy s then s else b
  | None => b
  end.

(** [a || b] where both sides may be missing or empty; the value of the
    right operand is returned as it is when the left one is falsy. *)
Definition or_opt (a : option string) (b : option string) : option string :=
  match a with
  | Some s => if truthy s then Some s else b
  | None => b
  end.

(** [s.startsWith(p)]. *)
Fixpoint startsWith (s p : string) {struct p} : bool :=
  match p with
  | EmptyString => true
  | String c p' =>
      match s with
      | EmptyString => false
      | String d s' => Ascii.eqb c d && startsWith s' p'
      end
  end.

(** [s.includes(needle)]: [needle] starts at some position of [s]. *)
Fixpoint includes (s needle : string) : bool :=
  startsWith s needle ||
  match s with
  | EmptyString => false
  | String _ s' => includes s' needle
  end.

(** [s.split(sep)] for a one-character separator: never empty. *)
Fixpoint split (sep : ascii) (s : string) : list string :=
  match s with
  | EmptyString => [EmptyString]
  | String c r =>
      if Ascii.eqb c sep then EmptyString :: split sep r
      else match split sep r with
           | h :: t => String c h :: t
           | [] => [String c EmptyString]
           end
  end.

(** [a.pop()] read as a value: the last element, [undefined] on []. *)
Fixpoint pop {A : Type} (l : list A) : option A :=
  match l with
  | [] => None
  | [x] => Some x
  | _ :: t => pop t
  end.

(** Decimal digits of a natural number. *)
Definition decimal (n : N) : string :=
  NilZero.string_of_uint (N.to_uint n).

(** [String(h / 100)] for a whole number of hundredths [h]: the integer
    part, then at most two decimals, trailing zeros dropped. *)
Definition hundredths_toString (h : N) : string :=
  let q := h / 100 in
  let r := h mod 100 in
  if r =? 0 then decimal q
  else if r mod 10 =? 0 then decimal q ++ "." ++ decimal (r / 10)
  else decimal q ++ "." ++ decimal (r / 10) ++ decimal (r mod 10).

(** [Math.floor(Math.log(b) / Math.log(1024))] for an integer [b >= 1]:
    the number of whole factors 1024 in [b].  The floating-point quotient
    of the source agrees with it below 1024^4; just below a higher power of
    1024 it can round up to the next whole number. *)
Definition floor_log1024 (b : N) : N := N.log2 b / 10.

(** [Math.round(b / Math.pow(1024, i) * 100)]: the nearest whole number of
    hundredths, halves rounded up. *)
Definition round_hundredths (b i : N) : N :=
  (200 * b + 1024 ^ i) / (2 * 1024 ^ i).

(** [a[i]] turned into text by [+]: out of range reads ["undefined"]. *)
Definition index_text (a : list string) (i : N) : string :=
  match nth_error a (N.to_nat i) with
  | Some s => s
  | None => "undefined"
  end.

End JS.

(* ================================================================== *)
(** ** Effects: state, a chronological trace of events, exceptions *)
(* ================================================================== *)

(** What a [throw] or a rejected promise carries. *)
Inductive Exn := Err (message : string).

Module Eff.

Section Monad.
Context {S E : Type}.

(** A computation reads the state and yields a value or an exception,
    the new state, and the events it emitted, oldest first. *)
Definition M (A : Type) : Type := S -> (Exn + A) * S * list E.

Definition ret {A} (a : A) : M A := fun s => (inr a, s, []).

Definition bind {A B} (m : M A) (k : A -> M B) : M B :=
  fun s =>
    match m s with
    | (inl x, s1, t1) => (inl x, s1, t1)
    | (inr a, s1, t1) =>
        let '(r, s2, t2) := k a s1 in (r, s2, (t1 ++ t2)%list)
    end.

Definition throw {A} (x : Exn) : M A := fun s => (inl x, s, []).

Definition emit (e : E) : M unit := fun s => (inr tt, s, [e]).

Definition modify (f : S -> S) : M unit := fun s => (inr tt, f s, []).

(** [try { body } catch (error) { handler error }]. *)
Definition try_catch {A} (body : M A) (handler : Exn -> M A) : M A :=
  fun s =>
    match body s with
    | (inl x, s1, t1) =>
        let '(r, s2, t2) := handler x s1 in (r, s2, (t1 ++ t2)%list)
    | done => done
    end.

(** [try { body } finally { fin }]: [fin] always runs; its own exception
    replaces the outcome of [body]. *)
Definition finally {A} (body : M A) (fin : M unit) : M A :=
  fun s =>
    let '(r, s1, t1) := body s in
    match fin s1 with
    | (inl x, s2, t2) => (inl x, s2, (t1 ++ t2)%list)
    | (inr _, s2, t2) => (r, s2, (t1 ++ t2)%list)
    end.

(** A settled promise. *)
Definition Promise (A : Type) : Type := (Exn + A)%type.

(** Calling an [async] function never throws: the outcome of its body is
    held by the promise it returns. *)
Definition async {A} (body : M A) : M (Promise A) :=
  fun s => let '(r, s1, t1) := body s in (inr r, s1, t1).

Definition await {A} (p : Promise A) : M A :=
  match p with
  | inl x => throw x
  | inr a => ret a
  end.

(** [await Promise.all(ps)]: the values in order, or the first
    rejection; the promises here are settled when they are made, in the
    order of the list, so that the first rejection is the first in the
    list. *)
Fixpoint promise_all {A} (ps : list (Promise A)) : Promise (list A) :=
  match ps with
  | [] => inr []
  | inl x :: _ => inl x
  | inr a :: rest =>
      match promise_all rest with
      | inl x => inl x
      | inr l => inr (a :: l)
      end
  end.

Definition outcome {A} (r : (Exn + A) * S * list E) : Exn + A := fst (fst r).
Definition final {A} (r : (Exn + A) * S * list E) : S := snd (fst r).
Definition events {A} (r : (Exn + A) * S * list E) : list E := snd r.

End Monad.

Arguments M : clear implicits.

Module Notations.
Notation "x <- m ;; k" := (bind m (fun x => k))
  (at level 61, m at next level, right associativity).
Notation "m ;; k" := (bind m (fun _ => k))
  (at level 61, right associativity).
End Notations.

End Eff.

(* ================================================================== *)
(** ** The wire shape shared by the page and the routes *)
(* ================================================================== *)

(** One stored image as the routes report it. *)
Record Descriptor := mkDescriptor {
  public_id : string;
  secure_url : string;
  d_width : option N;
  d_height : option N;
  d_format : option string;
  d_bytes : option N;
  created_at : string;
  original_filename : option string
}.

(* ================================================================== *)
(** ** The gallery page *)
(* ================================================================== *)

Module Gallery.
Import Eff Eff.Notations.

Record UploadedImage := mkUploadedImage {
  id : string;
  url : string;
  publicId : string;
  originalName : string;
  uploadedAt : string;
  width : option N;
  height : option N;
  format : option string;
  bytes : option N
}.

(** A browser [File]: the fields the page reads. *)
Record File := mkFile {
  name : string;
  type : string;
  size : N
}.

Inductive ViewMode := grid | list_view.

(** The [useState] cells of the component. *)
Record PageState := mkPageState {
  images : list UploadedImage;
  uploading : bool;
  loading : bool;
  dragActive : bool;
  viewMode : ViewMode;
  searchTerm : string
}.

(** The state of the first render. *)
Definition initialState : PageState :=
  mkPageState [] false true false grid "".

(** What the page does to the outside, and each state write. *)
Inductive Event :=
| FetchGet (url : string)
| FetchPostFile (url : string) (field : string) (file : File)
| ConsoleError (label : string) (error : Exn)
| Alert (message : string)
| SetImages (imgs : list UploadedImage)
| SetUploading (b : bool)
| SetLoading (b : bool).

Definition Page := Eff.M PageState Event.

Definition setImages (imgs : list UploadedImage) : Page unit :=
  emit (SetImages imgs) ;;
  modify (fun s => mkPageState imgs (uploading s) (loading s)
                     (dragActive s) (viewMode s) (searchTerm s)).

Definition setUploading (b : bool) : Page unit :=
  emit (SetUploading b) ;;
  modify (fun s => mkPageState (images s) b (loading s)
                     (dragActive s) (viewMode s) (searchTerm s)).

Definition setLoading (b : bool) : Page unit :=
  emit (SetLoading b) ;;
  modify (fun s => mkPageState (images s) (uploading s) b
                     (dragActive s) (viewMode s) (searchTerm s)).

Definition console_error (label : string) (error : Exn) : Page unit :=
  emit (ConsoleError label error).

Definition alert (message : string) : Page unit := emit (Alert message).

(** *** The network as the page sees it *)

(** The answer to the list request: [ok], and what [response.json()]
    gives as [data.images] (an exception when the body cannot be read that
    way). *)
Record ListResponse := mkListResponse {
  list_ok : bool;
  list_images : Exn + list Descriptor
}.

(** The answer to an upload request: not [ok] with its [errorData.error],
    or [ok] with its descriptor; each body may fail to parse. *)
Inductive UploadResponse :=
| UploadNotOk (errorData : Exn + option string)
| UploadOk (data : Exn + Descriptor).

(** [fetch] rejects or resolves to a response. *)
Record Network := mkNetwork {
  net_images : Exn + ListResponse;
  net_upload : File -> Exn + UploadResponse
}.

Section Handlers.
Variable net : Network.

Definition images_url : string := "/api/images?folder=gallery".
Definition upload_url : string := "/api/upload".

Definition fetch_images : Page ListResponse :=
  emit (FetchGet images_url) ;; await (net_images net).

Definition fetch_upload (file : File) : Page UploadResponse :=
  emit (FetchPostFile upload_url "file" file) ;; await (net_upload net file).

(** The mapping applied to each [img] of [data.images]. *)
Definition formatImage (img : Descriptor) : UploadedImage :=
  {| id := public_id img;
     url := secure_url img;
     publicId := public_id img;
     originalName :=
       JS.or_else
         (JS.or_opt (original_filename img)
                    (JS.pop (JS.split "/" (public_id img))))
         "Unknown";
     uploadedAt := created_at img;
     width := d_width img;
     height := d_height img;
     format := d_format img;
     bytes := d_bytes img |}.

Definition fetchImages : Page unit :=
  finally
    (try_catch
       (setLoading true ;;
        response <- fetch_images ;;
        (if negb (list_ok response)
         then throw (Err "Failed to fetch images")
         else ret tt) ;;
        data_images <- await (list_images response) ;;
        let formattedImages := map formatImage data_images in
        setImages formattedImages)
       (fun error =>
          console_error "Error fetching images:" error ;;
          alert "Failed to load images. Please refresh the page."))
    (setLoading false).

Definition uploadToCloudinary (file : File) : Page (Promise UploadedImage) :=
  async
    (response <- fetch_upload file ;;
     match response with
     | UploadNotOk errorData =>
         error <- await errorData ;;
         throw (Err (JS.or_else error "Upload failed"))
     | UploadOk body =>
         data <- await body ;;
         ret {| id := public_id data;
                url := secure_url data;
                publicId := public_id data;
                originalName := name file;
                uploadedAt := created_at data;
                width := d_width data;
                height := d_height data;
                format := d_format data;
                bytes := d_bytes data |}
     end).

(** The [for] loop of [handleFileUpload]: one call per image file, its
    promise pushed on [uploadPromises]. *)
Fixpoint push_uploads (files : list File)
    (uploadPromises : list (Promise UploadedImage))
  : Page (list (Promise UploadedImage)) :=
  match files with
  | [] => ret uploadPromises
  | file :: rest =>
      if JS.startsWith (type file) "image/"
      then p <- uploadToCloudinary file ;;
           push_uploads rest (uploadPromises ++ [p])%list
      else push_uploads rest uploadPromises
  end.

(** [handleFileUpload(files: FileList | null)]. *)
Definition handleFileUpload (files : option (list File)) : Page unit :=
  match files with
  | None => ret tt
  | Some [] => ret tt
  | Some fs =>
      setUploading true ;;
      uploadPromises <- push_uploads fs [] ;;
      finally
        (try_catch
           (await (promise_all uploadPromises) ;;
            fetchImages)
           (fun error =>
              console_error "Upload error:" error ;;
              alert "Upload failed. Please try again."))
        (setUploading false)
  end.

End Handlers.

(** *** Derived values of a render *)

Section Search.
(** [String.prototype.toLowerCase], left abstract: the results below
    hold whatever the case mapping is. *)
Variable toLowerCase : string -> string.

Definition matchesSearch (searchTerm : string) (image : UploadedImage) : bool :=
  JS.includes (toLowerCase (originalName image)) (toLowerCase searchTerm)
  || JS.includes (toLowerCase (publicId image)) (toLowerCase searchTerm).

Definition filteredImages (s : PageState) : list UploadedImage :=
  filter (matchesSearch (searchTerm s)) (images s).
End Search.

Definition sizes : list string := ["Bytes"; "KB"; "MB"; "GB"].

(** [formatFileSize(bytes?: number)]; the guards are kept in the order of
    the source. *)
Definition formatFileSize (bytes : option N) : string :=
  match bytes with
  | None => "Unknown"
  | Some b =>
      if b =? 0 then "Unknown"                 (* if (!bytes) *)
      else if b =? 0 then "0 Byte"             (* if (bytes === 0) *)
      else
        let i := JS.floor_log1024 b in
        JS.hundredths_toString (JS.round_hundredths b i)
          ++ " " ++ JS.index_text sizes i
  end.

End Gallery.

(* ================================================================== *)
(** ** The API routes *)
(* ================================================================== *)

Module Server.
Import Eff Eff.Notations.

(** A file part as the route receives it. *)
Record File := mkFile {
  file_name : string;
  file_type : string;
  file_contents : list Byte.byte
}.

(** A [FormData] entry value is a [File] or a string. *)
Inductive FormDataEntryValue :=
| EntryFile (f : File)
| EntryString (s : string).

Definition FormData := list (string * FormDataEntryValue).

(** The request: the query parameters of its URL in order, and what
    [request.formData()] settles to. *)
Record Request := mkRequest {
  searchParams : list (string * string);
  formData : Eff.Promise FormData
}.

(** The options object given to [upload_stream]. *)
Record UploadOptions := mkUploadOptions {
  resource_type : string;
  folder : string
}.

(** A search under construction: [expression], [sort_by] calls in order,
    [max_results]. *)
Record Search := mkSearch {
  search_expression : string;
  search_sort_by : list (string * string);
  search_max_results : option N
}.

Record SearchResult := mkSearchResult {
  resources : list Descriptor;
  total_count : N
}.

(** What [upload_stream(options, callback).end(buffer)] comes to: the call
    itself throws inside the promise executor (no configuration, say), so
    that the callback is never run; or the callback is run with an error;
    or it is run with a result. *)
Inductive UploadOutcome :=
| UploadThrows (error : Exn)
| CallbackError (error : Exn)
| CallbackResult (result : Descriptor).

(** The media store: what an upload and a search come back with. *)
Record Store := mkStore {
  store_upload : UploadOptions -> list Byte.byte -> UploadOutcome;
  store_search : Search -> Exn + SearchResult
}.

Inductive Event :=
| StoreUpload (options : UploadOptions) (buffer : list Byte.byte)
| StoreSearch (query : Search)
| ConsoleError (label : string) (error : Exn).

(** The object handed to [NextResponse.json]. *)
Inductive Body :=
| BodyDescriptor (d : Descriptor)
| BodyImages (images : list Descriptor) (total : N)
| BodyError (error : string).

Record Response := mkResponse {
  status : N;
  body : Body
}.

(** The routes keep no state between the steps of a request. *)
Definition Route := Eff.M unit Event.

Definition json (b : Body) (st : option N) : Response :=
  {| status := match st with Some n => n | None => 200 end; body := b |}.

Definition console_error (label : string) (error : Exn) : Route unit :=
  emit (ConsoleError label error).

(** [formData.get(name)]: the first value under [name], else [null]. *)
Fixpoint FormData_get (fd : FormData) (name : string) : option FormDataEntryValue :=
  match fd with
  | [] => None
  | (k, v) :: rest => if String.eqb k name then Some v else FormData_get rest name
  end.

(** [searchParams.get(name)]: the first value under [name], else [null]. *)
Fixpoint URLSearchParams_get (ps : list (string * string)) (name : string) : option string :=
  match ps with
  | [] => None
  | (k, v) :: rest => if String.eqb k name then Some v else URLSearchParams_get rest name
  end.

(** [!file]: [null] and the empty string are falsy, a [File] never is. *)
Definition not_file (file : option FormDataEntryValue) : bool :=
  match file with
  | None => true
  | Some (EntryString s) => negb (JS.truthy s)
  | Some (EntryFile _) => false
  end.

(** [await file.arrayBuffer()]: only a [File] has the method. *)
Definition arrayBuffer (file : option FormDataEntryValue) : Route (list Byte.byte) :=
  match file with
  | Some (EntryFile f) => ret (file_contents f)
  | _ => throw (Err "file.arrayBuffer is not a function")
  end.

Section Routes.
Variable store : Store.

(** The promise around [upload_stream(options, callback).end(buffer)]: a
    throw in the executor rejects it as it is; the callback logs its error
    before it rejects. *)
Definition upload_stream (options : UploadOptions) (buffer : list Byte.byte)
  : Route Descriptor :=
  emit (StoreUpload options buffer) ;;
  match store_upload store options buffer with
  | UploadThrows error => throw error
  | CallbackError error => console_error "Cloudinary error:" error ;; throw error
  | CallbackResult result => ret result
  end.

(** [POST /api/upload]. *)
Definition POST (request : Request) : Route Response :=
  try_catch
    (fd <- await (formData request) ;;
     let file := FormData_get fd "file" in
     if not_file file
     then ret (json (BodyError "No file provided") (Some 400))
     else
       buffer <- arrayBuffer file ;;
       result <- upload_stream
                   {| resource_type := "auto"; folder := "gallery" |}
                   buffer ;;
       ret (json (BodyDescriptor
                    {| public_id := public_id result;
                       secure_url := secure_url result;
                       d_width := d_width result;
                       d_height := d_height result;
                       d_format := d_format result;
                       d_bytes := d_bytes result;
                       created_at := created_at result;
                       original_filename := None |})
                 None))
    (fun error =>
       console_error "Upload error:" error ;;
       ret (json (BodyError "Upload failed") (Some 500))).

(** The builder calls of [cloudinary.search]. *)
Definition expression (e : string) : Search := mkSearch e [] None.
Definition sort_by (field dir : string) (q : Search) : Search :=
  mkSearch (search_expression q) (search_sort_by q ++ [(field, dir)])%list
           (search_max_results q).
Definition max_results (n : N) (q : Search) : Search :=
  mkSearch (search_expression q) (search_sort_by q) (Some n).
Definition execute (q : Search) : Route SearchResult :=
  emit (StoreSearch q) ;; await (store_search store q).

(** The mapping applied to each [resource] of [result.resources]. *)
Definition normalize (resource : Descriptor) : Descriptor :=
  {| public_id := public_id resource;
     secure_url := secure_url resource;
     d_width := d_width resource;
     d_height := d_height resource;
     d_format := d_format resource;
     d_bytes := d_bytes resource;
     created_at := created_at resource;
     original_filename :=
       Some (JS.or_else (original_filename resource) (public_id resource)) |}.

(** The [folder] read from the query string. *)
Definition folder_of (request : Request) : string :=
  JS.or_else (URLSearchParams_get (searchParams request) "folder") "gallery".

(** [GET /api/images]. *)
Definition GET (request : Request) : Route Response :=
  try_catch
    (let folder := folder_of request in
     result <- execute
                 (max_results 500
                    (sort_by "created_at" "desc"
                       (expression ("folder:" ++ folder ++ "/*")))) ;;
     let images := map normalize (resources result) in
     ret (json (BodyImages images (total_count result)) None))
    (fun error =>
       console_error "Fetch images error:" error ;;
       ret (json (BodyError "Failed to fetch images") (Some 500))).

End Routes.

End Server.

(* ================================================================== *)
(** ** The gallery page: drag and drop, clipboard, render conditions *)
(* ================================================================== *)

Module Ui.
Import Eff Eff.Notations.

(** What the remaining handlers do besides the events of [Gallery]: calls
    on the DOM event, the drag flag, the clipboard and the document. *)
Inductive Event :=
| PreventDefault
| StopPropagation
| SetDragActive (b : bool)
| ClipboardWriteText (text : string)
| CreateTextArea
| SetTextAreaValue (value : string)
| AppendChild
| SelectTextArea
| ExecCommand (command : string)
| RemoveChild
| Page (e : Gallery.Event).

Definition Handler := Eff.M Gallery.PageState Event.

(** A computation of [Gallery] run inside a handler of this module. *)
Definition lift {A : Type} (m : Gallery.Page A) : Handler A :=
  fun s => let '(r, s1, t) := m s in (r, s1, map Page t).

Definition setDragActive (b : bool) : Handler unit :=
  emit (SetDragActive b) ;;
  modify (fun s => Gallery.mkPageState (Gallery.images s) (Gallery.uploading s)
                     (Gallery.loading s) b (Gallery.viewMode s)
                     (Gallery.searchTerm s)).

(** [handleDrag(e)], on the [type] of the event. *)
Definition handleDrag (e_type : string) : Handler unit :=
  emit PreventDefault ;;
  emit StopPropagation ;;
  if String.eqb e_type "dragenter" || String.eqb e_type "dragover"
  then setDragActive true
  else if String.eqb e_type "dragleave"
       then setDragActive false
       else ret tt.

(** What the browser offers for copying: [navigator.clipboard], which may
    be missing, with what its [writeText] settles to; and
    [document.execCommand]. *)
Record Browser := mkBrowser {
  clipboard : option (string -> Exn + unit);
  execCommand : string -> Exn + bool
}.

Section Handlers.
Variable net : Gallery.Network.
Variable browser : Browser.

(** [handleDrop(e)], on [e.dataTransfer.files]; the promise of
    [handleFileUpload] is dropped. *)
Definition handleDrop (files : list Gallery.File) : Handler unit :=
  emit PreventDefault ;;
  emit StopPropagation ;;
  setDragActive false ;;
  _ <- async (lift (Gallery.handleFileUpload net (Some files))) ;;
  ret tt.

(** [copyToClipboard(url)]. *)
Definition copyToClipboard (url : string) : Handler unit :=
  try_catch
    (writeText <-
       match clipboard browser with
       | None =>
           throw (Err "Cannot read properties of undefined (reading 'writeText')")
       | Some writeText => ret writeText
       end ;;
     emit (ClipboardWriteText url) ;;
     await (writeText url) ;;
     lift (Gallery.alert "URL copied to clipboard!"))
    (fun error =>
       lift (Gallery.console_error "Copy failed:" error) ;;
       emit CreateTextArea ;;
       emit (SetTextAreaValue url) ;;
       emit AppendChild ;;
       emit SelectTextArea ;;
       emit (ExecCommand "copy") ;;
       _ <- await (execCommand browser "copy") ;;
       emit RemoveChild ;;
       lift (Gallery.alert "URL copied to clipboard!")).

(** The effect run on mount: [fetchImages()] from the first state. *)
Definition mount : Gallery.PageState * list Gallery.Event :=
  let r := Gallery.fetchImages net Gallery.initialState in
  (Eff.final r, Eff.events r).

End Handlers.

(** Truthiness of an optional number: present and not zero. *)
Definition truthy_number (n : option N) : bool :=
  match n with
  | Some k => negb (k =? 0)
  | None => false
  end.

(** [getImageDimensions(image)]. *)
Definition getImageDimensions (image : Gallery.UploadedImage) : string :=
  match Gallery.width image, Gallery.height image with
  | Some w, Some h =>
      if truthy_number (Some w) && truthy_number (Some h)
      then JS.decimal w ++ " × " ++ JS.decimal h
      else "Unknown"
  | _, _ => "Unknown"
  end.

(** The conditions of the render: which blocks of the page are shown, the
    upload button, and the two counts of the gallery heading. *)
Record View := mkView {
  button_disabled : bool;
  button_label : string;
  show_progress : bool;
  show_loading : bool;
  show_gallery : bool;
  shown_count : nat;
  total_count : nat;
  show_no_match : bool;
  layout : Gallery.ViewMode;
  shown_images : list Gallery.UploadedImage;
  show_empty_state : bool
}.

Section Render.
Variable toLowerCase : string -> string.

Definition render (s : Gallery.PageState) : View :=
  let filteredImages := Gallery.filteredImages toLowerCase s in
  let gallery := negb (Gallery.loading s) && Nat.ltb 0 (length (Gallery.images s)) in
  {| button_disabled := Gallery.uploading s;
     button_label := if Gallery.uploading s then "Uploading..." else "Choose Files";
     show_progress := Gallery.uploading s;
     show_loading := Gallery.loading s;
     show_gallery := gallery;
     shown_count := length filteredImages;
     total_count := length (Gallery.images s);
     show_no_match := gallery && Nat.eqb (length filteredImages) 0;
     layout := Gallery.viewMode s;
     shown_images := if gallery then filteredImages else [];
     show_empty_state :=
       negb (Gallery.loading s) && Nat.eqb (length (Gallery.images s)) 0
       && negb (Gallery.uploading s) |}.

End Render.

End Ui.

(* ================================================================== *)
(** ** Notions used to state the properties *)
(* ================================================================== *)

(** [needle] occurs in [s] as a contiguous run of characters. *)
Definition occurs_in (needle s : string) : Prop :=
  exists pre post, s = pre ++ needle ++ post.

(** [l'] is [l] with exactly the elements satisfying [P] kept, in order and
    with their repetitions. *)
Inductive Kept {A : Type} (P : A -> Prop) : list A -> list A -> Prop :=
| Kept_nil : Kept P [] []
| Kept_keep x l l' : P x -> Kept P l l' -> Kept P (x :: l) (x :: l')
| Kept_drop x l l' : ~ P x -> Kept P l l' -> Kept P (x :: l) l'.

(** The last character of a string. *)
Fixpoint last_char (s : string) : option ascii :=
  match s with
  | EmptyString => None
  | String c EmptyString => Some c
  | String _ r => last_char r
  end.

(** The case mapping restricted to the letters A-Z, to run examples. *)
Definition lower_ascii (c : ascii) : ascii :=
  let n := N_of_ascii c in
  if (65 <=? n) && (n <=? 90) then ascii_of_N (n + 32) else c.

Fixpoint toLowerCase_ascii (s : string) : string :=
  match s with
  | EmptyString => EmptyString
  | String c r => String (lower_ascii c) (toLowerCase_ascii r)
  end.

(** Which events are upload requests, list requests, alerts. *)
Definition is_upload_call (e : Gallery.Event) : bool :=
  match e with
  | Gallery.FetchPostFile _ _ _ => true
  | _ => false
  end.

Definition is_list_fetch (e : Gallery.Event) : bool :=
  match e with
  | Gallery.FetchGet _ => true
  | _ => false
  end.

Definition is_alert (e : Gallery.Event) : bool :=
  match e with
  | Gallery.Alert _ => true
  | _ => false
  end.

Definition is_store_upload (e : Server.Event) : bool :=
  match e with
  | Server.StoreUpload _ _ => true
  | _ => false
  end.

Definition is_image_file (f : Gallery.File) : bool :=
  JS.startsWith (Gallery.type f) "image/".

(** The promise an upload call returns, read off a run of the call (the
    call does not touch the page state). *)
Definition upload_promise (net : Gallery.Network) (file : Gallery.File)
  : Eff.Promise Gallery.UploadedImage :=
  match Eff.outcome (Gallery.uploadToCloudinary net file Gallery.initialState) with
  | inr p => p
  | inl x => inl x
  end.

Definition upload_succeeds (net : Gallery.Network) (file : Gallery.File) : bool :=
  match upload_promise net file with
  | inr _ => true
  | inl _ => false
  end.

Definition upload_call (file : Gallery.File) : Gallery.Event :=
  Gallery.FetchPostFile Gallery.upload_url "file" file.

(** The page state with its [uploading] flag replaced. *)
Definition with_uploading (b : bool) (s : Gallery.PageState) : Gallery.PageState :=
  Gallery.mkPageState (Gallery.images s) b (Gallery.loading s)
    (Gallery.dragActive s) (Gallery.viewMode s) (Gallery.searchTerm s).

(** Sample data for the examples. *)
Definition sample_image (pid oname : string) : Gallery.UploadedImage :=
  Gallery.mkUploadedImage pid ("https://res.example/" ++ pid) pid oname
    "2024-01-01T00:00:00Z" (Some 640) (Some 480) (Some "png") (Some 1536).

Definition sample_descriptor (pid : string) (oname : option string) : Descriptor :=
  mkDescriptor pid ("https://res.example/" ++ pid) (Some 640) (Some 480)
    (Some "png") (Some 10) "2024-01-01T00:00:00Z" oname.

Definition a_png : Gallery.File := Gallery.mkFile "a.png" "image/png" 10.
Definition b_jpg : Gallery.File := Gallery.mkFile "b.jpg" "image/jpeg" 2048.
Definition notes_txt : Gallery.File := Gallery.mkFile "notes.txt" "text/plain" 12.

(** A network on which the list request answers one image and every upload
    is accepted. *)
Definition working_net : Gallery.Network :=
  Gallery.mkNetwork
    (inr (Gallery.mkListResponse true
            (inr [sample_descriptor "gallery/a" (Some "a")])))
    (fun f => inr (Gallery.UploadOk
                     (inr (sample_descriptor "gallery/a" None)))).

(** The same network, on which every upload request is rejected. *)
Definition failing_net : Gallery.Network :=
  Gallery.mkNetwork
    (inr (Gallery.mkListResponse true
            (inr [sample_descriptor "gallery/a" (Some "a")])))
    (fun f => inl (Err "network error")).

Definition is_store_search (e : Server.Event) : bool :=
  match e with
  | Server.StoreSearch _ => true
  | _ => false
  end.

(** The search the list route builds for a folder. *)
Definition folder_search (folder : string) : Server.Search :=
  Server.mkSearch ("folder:" ++ folder ++ "/*") [("created_at", "desc")] (Some 500).

Definition gallery_options : Server.UploadOptions :=
  Server.mkUploadOptions "auto" "gallery".

Definition png_part : Server.File :=
  Server.mkFile "a.png" "image/png"
    [Byte.x89; Byte.x50; Byte.x4e; Byte.x47; Byte.x0d;
     Byte.x0a; Byte.x1a; Byte.x0a; Byte.x00; Byte.x00].

(** A store that accepts uploads and holds two images, one of them without
    a recorded file name. *)
Definition working_store : Server.Store :=
  Server.mkStore
    (fun _ buffer =>
       Server.CallbackResult
         (mkDescriptor "gallery/a" "https://res.example/gallery/a" None None
            (Some "png") (Some (N.of_nat (length buffer)))
            "2024-01-01T00:00:00Z" (Some "a")))
    (fun _ =>
       inr (Server.mkSearchResult
              [sample_descriptor "gallery/b" (Some "b");
               sample_descriptor "gallery/a" None] 2)).

(** A store whose upload fails, and whose only image has an empty recorded
    file name. *)
Definition failing_store : Server.Store :=
  Server.mkStore
    (fun _ _ => Server.CallbackError (Err "ECONNRESET api.cloudinary.com"))
    (fun _ =>
       inr (Server.mkSearchResult [sample_descriptor "gallery/x" (Some "")] 1)).

(** A store that is not configured: the upload call throws at once and
    the search is rejected. *)
Definition unconfigured_store : Server.Store :=
  Server.mkStore
    (fun _ _ => Server.UploadThrows (Err "Must supply api_key"))
    (fun _ => inl (Err "Must supply api_key")).


Definition upload_request (fd : Server.FormData) : Server.Request :=
  Server.mkRequest [] (inr fd).

Definition list_request (params : list (string * string)) : Server.Request :=
  Server.mkRequest params (inl (Err "no body")).

(** The page state after a run of [fetchImages]: [loading] is off and the
    image set is the given one. *)
Definition loaded (imgs : list Gallery.UploadedImage) (s : Gallery.PageState)
  : Gallery.PageState :=
  Gallery.mkPageState imgs (Gallery.uploading s) false
    (Gallery.dragActive s) (Gallery.viewMode s) (Gallery.searchTerm s).

(** The page state with its [dragActive] flag replaced. *)
Definition with_dragActive (b : bool) (s : Gallery.PageState) : Gallery.PageState :=
  Gallery.mkPageState (Gallery.images s) (Gallery.uploading s) (Gallery.loading s)
    b (Gallery.viewMode s) (Gallery.searchTerm s).

(** The character [c] occurs nowhere in [s]. *)
Fixpoint free_of (c : ascii) (s : string) : Prop :=
  match s with
  | EmptyString => True
  | String d r => d <> c /\ free_of c r
  end.

(** A network whose list request is answered with a server error. *)
Definition list_down_net : Gallery.Network :=
  Gallery.mkNetwork
    (inr (Gallery.mkListResponse false (inl (Err "not read"))))
    (fun f => inr (Gallery.UploadOk
                     (inr (sample_descriptor "gallery/a" None)))).

(** Which events of a handler come from the page computations it runs. *)
Definition is_page_event (e : Ui.Event) : bool :=
  match e with
  | Ui.Page _ => true
  | _ => false
  end.

Definition is_ui_alert (e : Ui.Event) : bool :=
  match e with
  | Ui.Page (Gallery.Alert _) => true
  | _ => false
  end.

(** A browser without [navigator.clipboard], and one whose clipboard
    refuses the text; in both [execCommand] reports that nothing was
    copied. *)
Definition no_clipboard_browser : Ui.Browser :=
  Ui.mkBrowser None (fun _ => inr false).

Definition refusing_clipboard_browser : Ui.Browser :=
  Ui.mkBrowser (Some (fun _ => inl (Err "NotAllowedError"))) (fun _ => inr false).

Definition is_server_log (e : Server.Event) : bool :=
  match e with
  | Server.ConsoleError _ _ => true
  | _ => false
  end.

(** The descriptor the upload route answers for a store result: the
    store's fields without a file name. *)
Definition uploaded_descriptor (result : Descriptor) : Descriptor :=
  mkDescriptor (public_id result) (secure_url result) (d_width result)
    (d_height result) (d_format result) (d_bytes result) (created_at result) None.

(* ================================================================== *)
(** * Properties *)
(* ================================================================== *)

(** ** Strings *)

Lemma startsWith_spec (s p : string) :
  JS.startsWith s p = true <-> exists post, s = p ++ post.
Proof.
  revert s; induction p as [|c p IH]; intros s; simpl.
  - split; [intros _; exists s; reflexivity | reflexivity].
  - destruct s as [|d s]; simpl.
    + split; [discriminate | intros [post H]; discriminate].
    + rewrite andb_true_iff, Ascii.eqb_eq, IH. split.
      * intros [-> [post ->]]. exists post; reflexivity.
      * intros [post H]. injection H as -> ->. split; [reflexivity | eauto].
Qed.

Lemma includes_spec (s needle : string) :
  JS.includes s needle = true <-> exists pre post, s = pre ++ needle ++ post.
Proof.
  induction s as [|c s IH]; simpl.
  - rewrite orb_false_r, startsWith_spec. split.
    + intros [post H]. exists "", post. exact H.
    + intros [pre [post H]]. destruct pre; [|discriminate]. eauto.
  - rewrite orb_true_iff, IH, startsWith_spec. split.
    + intros [[post H] | [pre [post H]]].
      * exists "", post. exact H.
      * exists (String c pre), post. simpl. now rewrite H.
    + intros [pre [post H]]. destruct pre as [|c' pre]; simpl in H.
      * left. eauto.
      * right. injection H as _ H. eauto.
Qed.

Lemma includes_empty (s : string) : JS.includes s "" = true.
Proof. apply includes_spec. exists "", s. reflexivity. Qed.

(** ** File sizes *)

Example formatFileSize_1536 : Gallery.formatFileSize (Some 1536) = "1.5 KB".
Proof. reflexivity. Qed.

Example formatFileSize_examples :
  Gallery.formatFileSize None = "Unknown" /\
  Gallery.formatFileSize (Some 1) = "1 Bytes" /\
  Gallery.formatFileSize (Some 1023) = "1023 Bytes" /\
  Gallery.formatFileSize (Some 1024) = "1 KB" /\
  Gallery.formatFileSize (Some 1234567) = "1.18 MB" /\
  Gallery.formatFileSize (Some 1073741824) = "1 GB" /\
  Gallery.formatFileSize (Some 1099511627776) = "1 undefined".
Proof. repeat split; reflexivity. Qed.

(** The index computed from [b] is the whole part of its logarithm in base
    1024. *)
Lemma floor_log1024_bounds (b : N) :
  0 < b ->
  1024 ^ JS.floor_log1024 b <= b < 1024 ^ (JS.floor_log1024 b + 1).
Proof.
  intros Hb. unfold JS.floor_log1024.
  destruct (N.log2_spec b Hb) as [Hlo Hhi].
  change 1024 with (2 ^ 10). rewrite <- !N.pow_mul_r.
  assert (Hd := N.Div0.mul_div_le (N.log2 b) 10).
  assert (Hm := N.mod_upper_bound (N.log2 b) 10 ltac:(lia)).
  assert (He := N.div_mod (N.log2 b) 10 ltac:(lia)).
  split.
  - eapply N.le_trans; [|exact Hlo]. apply N.pow_le_mono_r; lia.
  - eapply N.lt_le_trans; [exact Hhi|]. apply N.pow_le_mono_r; lia.
Qed.

(** Below 1024^4 the unit is the entry of [sizes] at that index. *)
Lemma formatFileSize_unit (b : N) :
  0 < b < 1024 ^ 4 ->
  exists u,
    nth_error Gallery.sizes (N.to_nat (JS.floor_log1024 b)) = Some u /\
    Gallery.formatFileSize (Some b) =
      JS.hundredths_toString (JS.round_hundredths b (JS.floor_log1024 b))
        ++ " " ++ u.
Proof.
  intros [Hpos Hlt].
  assert (Hi : JS.floor_log1024 b < 4).
  { destruct (floor_log1024_bounds b Hpos) as [Hlo _].
    destruct (N.lt_ge_cases (JS.floor_log1024 b) 4) as [H|H]; [exact H|].
    exfalso. apply (N.pow_le_mono_r 1024) in H; lia. }
  unfold Gallery.formatFileSize.
  destruct (N.eqb_spec b 0) as [->|_]; [lia|].
  cbv zeta. unfold JS.index_text.
  remember (JS.floor_log1024 b) as i eqn:Ei.
  assert (Hcase : i = 0 \/ i = 1 \/ i = 2 \/ i = 3) by lia.
  destruct Hcase as [->|[->|[->| ->]]]; simpl; eauto.
Qed.

(** C1, at zero.  [formatFileSize(0)] gives "Unknown", not "0 Byte": the
    test [!bytes] that precedes [bytes === 0] already holds for 0, so the
    branch returning "0 Byte" is never reached.  *)
Theorem formatFileSize_zero_Unknown :
  Gallery.formatFileSize (Some 0) = "Unknown" /\
  Gallery.formatFileSize (Some 0) <> "0 Byte".
Proof. split; [reflexivity | discriminate]. Qed.

Lemma last_char_app (x u : string) :
  u <> "" -> last_char (x ++ u) = last_char u.
Proof.
  intros Hu. induction x as [|c x IH]; [reflexivity|].
  simpl. destruct (x ++ u) eqn:E; [|exact IH].
  destruct x; simpl in E; [congruence | discriminate].
Qed.

(** The branch of [formatFileSize] that returns "0 Byte" is dead: no
    argument at all is rendered that way. *)
Lemma formatFileSize_never_0_Byte (bytes : option N) :
  Gallery.formatFileSize bytes <> "0 Byte".
Proof.
  destruct bytes as [b|]; [|discriminate].
  unfold Gallery.formatFileSize.
  destruct (N.eqb_spec b 0) as [_|_]; [discriminate|].
  cbv zeta. intros H. apply (f_equal last_char) in H.
  rewrite last_char_app in H by discriminate.
  unfold JS.index_text, Gallery.sizes in H.
  destruct (N.to_nat (JS.floor_log1024 b)) as [|[|[|[|[|n]]]]];
    discriminate H.
Qed.

(** ** Search *)

Lemma filter_Kept {A : Type} (f : A -> bool) (P : A -> Prop) (l : list A) :
  (forall x, f x = true <-> P x) -> Kept P l (filter f l).
Proof.
  intros Hf. induction l as [|x l IH]; simpl.
  - constructor.
  - destruct (f x) eqn:E.
    + apply Kept_keep; [now apply Hf | exact IH].
    + apply Kept_drop; [|exact IH]. intros HP. apply Hf in HP. congruence.
Qed.

Lemma matchesSearch_spec (lower : string -> string) (term : string)
    (img : Gallery.UploadedImage) :
  Gallery.matchesSearch lower term img = true <->
  occurs_in (lower term) (lower (Gallery.originalName img)) \/
  occurs_in (lower term) (lower (Gallery.publicId img)).
Proof.
  unfold Gallery.matchesSearch, occurs_in.
  now rewrite orb_true_iff, !includes_spec.
Qed.

(** C3.  The filtered set is exactly the entries of the image set whose
    [originalName] or [publicId], lower-cased, contains the lower-cased
    search string, kept in order; with the empty search string it is the
    whole image set.  (The case mapping sends the empty string to itself.) *)
Theorem filteredImages_exact (toLowerCase : string -> string) (s : Gallery.PageState) :
  toLowerCase "" = "" ->
  Kept (fun img =>
          occurs_in (toLowerCase (Gallery.searchTerm s))
                    (toLowerCase (Gallery.originalName img)) \/
          occurs_in (toLowerCase (Gallery.searchTerm s))
                    (toLowerCase (Gallery.publicId img)))
       (Gallery.images s) (Gallery.filteredImages toLowerCase s) /\
  (forall img,
      In img (Gallery.filteredImages toLowerCase s) <->
      In img (Gallery.images s) /\
      (occurs_in (toLowerCase (Gallery.searchTerm s))
                 (toLowerCase (Gallery.originalName img)) \/
       occurs_in (toLowerCase (Gallery.searchTerm s))
                 (toLowerCase (Gallery.publicId img)))) /\
  (Gallery.searchTerm s = "" ->
   Gallery.filteredImages toLowerCase s = Gallery.images s).
Proof.
  intros Hempty. unfold Gallery.filteredImages. split; [|split].
  - apply filter_Kept. intros img. apply matchesSearch_spec.
  - intros img. rewrite filter_In, matchesSearch_spec. reflexivity.
  - intros ->. induction (Gallery.images s) as [|img l IH]; simpl.
    + reflexivity.
    + unfold Gallery.matchesSearch at 1.
      rewrite Hempty, includes_empty. simpl. now rewrite IH.
Qed.

Example filteredImages_example :
  Gallery.filteredImages toLowerCase_ascii
    (Gallery.mkPageState
       [sample_image "gallery/cat" "Cat.PNG"; sample_image "gallery/dog" "dog.jpg";
        sample_image "gallery/CATALOG" "scan-01"]
       false false false Gallery.grid "cAt")
  = [sample_image "gallery/cat" "Cat.PNG"; sample_image "gallery/CATALOG" "scan-01"].
Proof. reflexivity. Qed.

Lemma filteredImages_exact_witness :
  toLowerCase_ascii "" = "" /\
  (forall img,
      In img (Gallery.filteredImages toLowerCase_ascii
                (Gallery.mkPageState [sample_image "gallery/cat" "Cat.PNG"]
                   false false false Gallery.grid "cAt")) <->
      In img [sample_image "gallery/cat" "Cat.PNG"] /\
      (occurs_in (toLowerCase_ascii "cAt")
                 (toLowerCase_ascii (Gallery.originalName img)) \/
       occurs_in (toLowerCase_ascii "cAt")
                 (toLowerCase_ascii (Gallery.publicId img)))) /\
  Gallery.filteredImages toLowerCase_ascii
    (Gallery.mkPageState [sample_image "gallery/cat" "Cat.PNG"]
       false false false Gallery.grid "")
  = [sample_image "gallery/cat" "Cat.PNG"].
Proof.
  split; [reflexivity|]. split.
  - exact (proj1 (proj2 (filteredImages_exact toLowerCase_ascii
             (Gallery.mkPageState [sample_image "gallery/cat" "Cat.PNG"]
                false false false Gallery.grid "cAt") eq_refl))).
  - exact (proj2 (proj2 (filteredImages_exact toLowerCase_ascii
             (Gallery.mkPageState [sample_image "gallery/cat" "Cat.PNG"]
                false false false Gallery.grid "") eq_refl)) eq_refl).
Defined.

(** ** Runs of the page handlers *)

Lemma uploadToCloudinary_run (net : Gallery.Network) (file : Gallery.File)
    (s : Gallery.PageState) :
  Gallery.uploadToCloudinary net file s
  = (inr (upload_promise net file), s, [upload_call file]).
Proof.
  unfold upload_promise, Eff.outcome, Gallery.uploadToCloudinary, Eff.async,
    Gallery.fetch_upload, Eff.bind, Eff.emit, Eff.await, Eff.throw, Eff.ret.
  destruct (Gallery.net_upload net file) as [x|[[x|e]|[x|d]]]; reflexivity.
Qed.

Lemma push_uploads_run (net : Gallery.Network) (files : list Gallery.File)
    (acc : list (Eff.Promise Gallery.UploadedImage)) (s : Gallery.PageState) :
  Gallery.push_uploads net files acc s
  = (inr (acc ++ map (upload_promise net) (filter is_image_file files))%list,
     s,
     map upload_call (filter is_image_file files)).
Proof.
  revert acc; induction files as [|f files IH]; intros acc;
    cbn [Gallery.push_uploads filter].
  - unfold Eff.ret. now rewrite app_nil_r.
  - change (JS.startsWith (Gallery.type f) "image/") with (is_image_file f).
    destruct (is_image_file f).
    + unfold Eff.bind. rewrite uploadToCloudinary_run, IH. cbn [map app].
      now rewrite <- app_assoc.
    + apply IH.
Qed.

(** [fetchImages] never throws, issues the list request right after
    raising [loading], lowers [loading] last, and leaves [uploading] alone. *)
Lemma fetchImages_run (net : Gallery.Network) (s : Gallery.PageState) :
  exists s' mid,
    Gallery.fetchImages net s
    = (inr tt, s',
       Gallery.SetLoading true :: Gallery.FetchGet Gallery.images_url
         :: mid ++ [Gallery.SetLoading false])%list /\
    Gallery.uploading s' = Gallery.uploading s /\
    Gallery.loading s' = false /\
    filter is_list_fetch mid = [] /\
    filter is_upload_call mid = [].
Proof.
  unfold Gallery.fetchImages, Eff.finally, Eff.try_catch, Gallery.fetch_images,
    Gallery.setLoading, Gallery.setImages, Gallery.console_error, Gallery.alert,
    Eff.bind, Eff.emit, Eff.modify, Eff.await, Eff.throw, Eff.ret.
  destruct (Gallery.net_images net) as [x|[ok [y|imgs]]]; simpl.
  - eexists _, [_; _]. simpl. repeat split.
  - destruct ok; simpl; eexists _, [_; _]; simpl; repeat split.
  - destruct ok; simpl.
    + eexists _, [_]. simpl. repeat split.
    + eexists _, [_; _]. simpl. repeat split.
Qed.

(** The whole run of [handleFileUpload] on a non-empty file list. *)
Lemma handleFileUpload_run (net : Gallery.Network) (f : Gallery.File)
    (fs : list Gallery.File) (s : Gallery.PageState) :
  Gallery.handleFileUpload net (Some (f :: fs)) s =
  match Eff.promise_all (map (upload_promise net) (filter is_image_file (f :: fs))) with
  | inr _ =>
      (inr tt,
       with_uploading false (Eff.final (Gallery.fetchImages net (with_uploading true s))),
       (Gallery.SetUploading true
          :: map upload_call (filter is_image_file (f :: fs))
          ++ Eff.events (Gallery.fetchImages net (with_uploading true s))
          ++ [Gallery.SetUploading false])%list)
  | inl x =>
      (inr tt,
       with_uploading false (with_uploading true s),
       (Gallery.SetUploading true
          :: map upload_call (filter is_image_file (f :: fs))
          ++ [Gallery.ConsoleError "Upload error:" x;
              Gallery.Alert "Upload failed. Please try again.";
              Gallery.SetUploading false])%list)
  end.
Proof.
  cbv beta iota delta [Gallery.handleFileUpload].
  unfold Eff.bind at 1. unfold Gallery.setUploading at 1.
  unfold Eff.bind at 1, Eff.emit at 1, Eff.modify at 1.
  cbv beta iota. fold (with_uploading true s).
  unfold Eff.bind at 1. rewrite push_uploads_run.
  cbv beta iota. cbn [app].
  generalize (filter is_image_file (f :: fs)); intros sel.
  destruct (Eff.promise_all _) as [x|imgs].
  - reflexivity.
  - destruct (fetchImages_run net (with_uploading true s))
      as (s' & mid & E & _).
    unfold Eff.finally, Eff.try_catch, Eff.bind, Eff.await, Eff.ret.
    rewrite E. unfold Eff.final, Eff.events, Gallery.setUploading,
      Eff.bind, Eff.emit, Eff.modify, with_uploading.
    cbn [fst snd app]. reflexivity.
Qed.

Lemma filter_upload_calls (l : list Gallery.File) :
  filter is_upload_call (map upload_call l) = map upload_call l.
Proof. induction l as [|f l IH]; simpl; [reflexivity | now rewrite IH]. Qed.

Lemma filter_list_fetch_upload_calls (l : list Gallery.File) :
  filter is_list_fetch (map upload_call l) = [].
Proof. induction l as [|f l IH]; simpl; [reflexivity | exact IH]. Qed.

Lemma filter_alert_upload_calls (l : list Gallery.File) :
  filter is_alert (map upload_call l) = [].
Proof. induction l as [|f l IH]; simpl; [reflexivity | exact IH]. Qed.

Lemma promise_all_cases (net : Gallery.Network) (sel : list Gallery.File) :
  if forallb (upload_succeeds net) sel
  then exists l, Eff.promise_all (map (upload_promise net) sel) = inr l
  else exists x, Eff.promise_all (map (upload_promise net) sel) = inl x.
Proof.
  induction sel as [|f sel IH]; simpl.
  - eauto.
  - unfold upload_succeeds at 1.
    destruct (upload_promise net f) as [x|img]; simpl; [eauto|].
    destruct (forallb (upload_succeeds net) sel);
      destruct IH as [y ->]; eauto.
Qed.

(** ** Selecting files *)

(** C9.  With [null] or an empty file list [handleFileUpload] returns at
    once: the page state is the one it started from (the [uploading] flag,
    the image set and every other flag), and nothing is emitted, neither an
    upload request nor a list fetch. *)
Theorem handleFileUpload_nothing_selected (net : Gallery.Network)
    (s : Gallery.PageState) :
  (Eff.outcome (Gallery.handleFileUpload net None s) = inr tt /\
   Eff.final (Gallery.handleFileUpload net None s) = s /\
   Eff.events (Gallery.handleFileUpload net None s) = []) /\
  (Eff.outcome (Gallery.handleFileUpload net (Some []) s) = inr tt /\
   Eff.final (Gallery.handleFileUpload net (Some []) s) = s /\
   Eff.events (Gallery.handleFileUpload net (Some []) s) = []).
Proof. repeat split. Qed.

(** C7.  The upload calls issued by [handleFileUpload] are, in order, one
    per selected file whose type starts with "image/", and none for any
    other file; three files of which one is text/plain give two calls. *)
Theorem handleFileUpload_upload_calls (net : Gallery.Network)
    (files : option (list Gallery.File)) (s : Gallery.PageState) :
  filter is_upload_call (Eff.events (Gallery.handleFileUpload net files s))
  = map upload_call
      (filter (fun f => JS.startsWith (Gallery.type f) "image/")
              (match files with Some fs => fs | None => [] end)) /\
  (forall n1 n2 n3 z1 z2 z3,
      length (filter is_upload_call
                (Eff.events
                   (Gallery.handleFileUpload net
                      (Some [Gallery.mkFile n1 "image/png" z1;
                             Gallery.mkFile n2 "text/plain" z2;
                             Gallery.mkFile n3 "image/jpeg" z3]) s)))
      = 2%nat).
Proof.
  assert (G : forall fs,
    filter is_upload_call (Eff.events (Gallery.handleFileUpload net (Some fs) s))
    = map upload_call (filter is_image_file fs)).
  { intros [|f fs]; [reflexivity|].
    rewrite handleFileUpload_run.
    destruct (Eff.promise_all _) as [x|imgs]; unfold Eff.events; cbn [snd].
    - cbn [filter is_upload_call]. rewrite filter_app, filter_upload_calls.
      cbn. now rewrite app_nil_r.
    - destruct (fetchImages_run net (with_uploading true s))
        as (s' & mid & E & _ & _ & _ & Hmid).
      rewrite E. cbn [snd filter is_upload_call].
      rewrite !filter_app, filter_upload_calls. cbn [filter is_upload_call app].
      rewrite !filter_app, Hmid. cbn. now rewrite app_nil_r. }
  split.
  - destruct files as [fs|]; [apply G | reflexivity].
  - intros. rewrite G. reflexivity.
Qed.

(** C2, as the code has it.  On a non-empty file list the [uploading] flag
    ends [false] and its reset is the last event.  When every issued upload
    succeeds, the run of [fetchImages] (with its list request) comes after
    the upload calls and right before that reset.  When an upload fails, no
    list request is issued at all: the error is logged, one alert is shown,
    and the flag is reset. *)
Theorem handleFileUpload_settle (net : Gallery.Network) (f : Gallery.File)
    (fs : list Gallery.File) (s : Gallery.PageState) :
  Gallery.uploading (Eff.final (Gallery.handleFileUpload net (Some (f :: fs)) s))
  = false /\
  if forallb (upload_succeeds net) (filter is_image_file (f :: fs))
  then
    Eff.events (Gallery.handleFileUpload net (Some (f :: fs)) s)
    = (Gallery.SetUploading true
         :: map upload_call (filter is_image_file (f :: fs))
         ++ Eff.events (Gallery.fetchImages net (with_uploading true s))
         ++ [Gallery.SetUploading false])%list /\
    In (Gallery.FetchGet Gallery.images_url)
       (Eff.events (Gallery.fetchImages net (with_uploading true s)))
  else
    filter is_list_fetch
      (Eff.events (Gallery.handleFileUpload net (Some (f :: fs)) s)) = [] /\
    filter is_alert
      (Eff.events (Gallery.handleFileUpload net (Some (f :: fs)) s))
    = [Gallery.Alert "Upload failed. Please try again."] /\
    exists x,
      Eff.events (Gallery.handleFileUpload net (Some (f :: fs)) s)
      = (Gallery.SetUploading true
           :: map upload_call (filter is_image_file (f :: fs))
           ++ [Gallery.ConsoleError "Upload error:" x;
               Gallery.Alert "Upload failed. Please try again.";
               Gallery.SetUploading false])%list.
Proof.
  rewrite handleFileUpload_run.
  pose proof (promise_all_cases net (filter is_image_file (f :: fs))) as Hc.
  destruct (forallb (upload_succeeds net) (filter is_image_file (f :: fs))).
  - destruct Hc as [l ->]. unfold Eff.final, Eff.events. cbn [fst snd].
    split; [reflexivity|]. split; [reflexivity|].
    destruct (fetchImages_run net (with_uploading true s))
      as (s' & mid & E & _).
    rewrite E. cbn [snd]. right. left. reflexivity.
  - destruct Hc as [x ->]. unfold Eff.final, Eff.events. cbn [fst snd].
    split; [reflexivity|]. split; [|split; [|eauto]].
    + cbn [filter is_list_fetch].
      rewrite filter_app, filter_list_fetch_upload_calls. reflexivity.
    + cbn [filter is_alert].
      rewrite filter_app, filter_alert_upload_calls. reflexivity.
Qed.

(** C2 as stated fails: one image file whose upload is rejected.  The
    upload call settles as a failure, no list request follows, and the
    [uploading] flag is reset all the same. *)
Lemma handleFileUpload_failure_skips_fetchImages :
  upload_succeeds failing_net a_png = false /\
  Eff.events (Gallery.handleFileUpload failing_net (Some [a_png]) Gallery.initialState)
  = [Gallery.SetUploading true;
     upload_call a_png;
     Gallery.ConsoleError "Upload error:" (Err "network error");
     Gallery.Alert "Upload failed. Please try again.";
     Gallery.SetUploading false] /\
  ~ In (Gallery.FetchGet Gallery.images_url)
       (Eff.events (Gallery.handleFileUpload failing_net (Some [a_png])
                      Gallery.initialState)) /\
  Gallery.uploading
    (Eff.final (Gallery.handleFileUpload failing_net (Some [a_png])
                  Gallery.initialState)) = false.
Proof.
  split; [reflexivity|]. split; [reflexivity|]. split; [|reflexivity].
  cbn. intros H. repeat (destruct H as [H|H]; [discriminate H|]). exact H.
Qed.

Example handleFileUpload_success_example :
  Eff.events (Gallery.handleFileUpload working_net
                (Some [a_png; notes_txt; b_jpg]) Gallery.initialState)
  = [Gallery.SetUploading true;
     upload_call a_png;
     upload_call b_jpg;
     Gallery.SetLoading true;
     Gallery.FetchGet Gallery.images_url;
     Gallery.SetImages
       [Gallery.formatImage (sample_descriptor "gallery/a" (Some "a"))];
     Gallery.SetLoading false;
     Gallery.SetUploading false].
Proof. reflexivity. Qed.

(** ** The upload route *)



Lemma POST_run_store_error (store : Server.Store) (request : Server.Request)
    (fd : Server.FormData) (f : Server.File) (e : Exn) :
  Server.formData request = inr fd ->
  Server.FormData_get fd "file" = Some (Server.EntryFile f) ->
  Server.store_upload store gallery_options (Server.file_contents f)
  = Server.CallbackError e ->
  Server.POST store request tt
  = (inr (Server.mkResponse 500 (Server.BodyError "Upload failed")), tt,
     [Server.StoreUpload gallery_options (Server.file_contents f);
      Server.ConsoleError "Cloudinary error:" e;
      Server.ConsoleError "Upload error:" e]).
Proof.
  intros Hfd Hget Hfail.
  unfold Server.POST, Eff.try_catch, Eff.bind, Eff.await.
  rewrite Hfd. unfold Eff.ret at 1. rewrite Hget.
  cbn [Server.not_file Server.arrayBuffer]. unfold Eff.ret at 1.
  unfold Server.upload_stream, Eff.bind, Eff.emit.
  fold gallery_options. rewrite Hfail. reflexivity.
Qed.

Lemma POST_run_store_throws (store : Server.Store) (request : Server.Request)
    (fd : Server.FormData) (f : Server.File) (e : Exn) :
  Server.formData request = inr fd ->
  Server.FormData_get fd "file" = Some (Server.EntryFile f) ->
  Server.store_upload store gallery_options (Server.file_contents f)
  = Server.UploadThrows e ->
  Server.POST store request tt
  = (inr (Server.mkResponse 500 (Server.BodyError "Upload failed")), tt,
     [Server.StoreUpload gallery_options (Server.file_contents f);
      Server.ConsoleError "Upload error:" e]).
Proof.
  intros Hfd Hget Hfail.
  unfold Server.POST, Eff.try_catch, Eff.bind, Eff.await.
  rewrite Hfd. unfold Eff.ret at 1. rewrite Hget.
  cbn [Server.not_file Server.arrayBuffer]. unfold Eff.ret at 1.
  unfold Server.upload_stream, Eff.bind, Eff.emit.
  fold gallery_options. rewrite Hfail. reflexivity.
Qed.







(** A text part named "file": an empty value is answered like a missing
    part, any other value fails inside the handler and is answered 500; the
    store is not reached either way. *)
Remark POST_text_part (store : Server.Store) (text : string) :
  Server.POST store (upload_request [("file", Server.EntryString text)]) tt
  = if JS.truthy text
    then (inr (Server.mkResponse 500 (Server.BodyError "Upload failed")), tt,
          [Server.ConsoleError "Upload error:"
             (Err "file.arrayBuffer is not a function")])
    else (inr (Server.mkResponse 400 (Server.BodyError "No file provided")), tt, []).
Proof. destruct text; reflexivity. Qed.

(** C4.  When the store's upload fails, with whatever error [e], be it
    that the call throws or that its callback reports [e], the upload
    route answers 500 with body [{error: "Upload failed"}], a body in which
    [e] does not occur.  [e] is written to the server log under "Upload
    error:", and nothing but [e] is logged; a failure reported to the
    callback is logged under "Cloudinary error:" first. *)
Theorem POST_upload_failed (store : Server.Store) (request : Server.Request)
    (fd : Server.FormData) (f : Server.File) (e : Exn) :
  Server.formData request = inr fd ->
  Server.FormData_get fd "file" = Some (Server.EntryFile f) ->
  Server.store_upload store gallery_options (Server.file_contents f)
  = Server.UploadThrows e \/
  Server.store_upload store gallery_options (Server.file_contents f)
  = Server.CallbackError e ->
  Eff.outcome (Server.POST store request tt)
  = inr (Server.mkResponse 500 (Server.BodyError "Upload failed")) /\
  In (Server.ConsoleError "Upload error:" e)
     (Eff.events (Server.POST store request tt)) /\
  (forall label x,
      In (Server.ConsoleError label x) (Eff.events (Server.POST store request tt)) ->
      x = e) /\
  (Server.store_upload store gallery_options (Server.file_contents f)
   = Server.UploadThrows e ->
   Eff.events (Server.POST store request tt)
   = [Server.StoreUpload gallery_options (Server.file_contents f);
      Server.ConsoleError "Upload error:" e]) /\
  (Server.store_upload store gallery_options (Server.file_contents f)
   = Server.CallbackError e ->
   Eff.events (Server.POST store request tt)
   = [Server.StoreUpload gallery_options (Server.file_contents f);
      Server.ConsoleError "Cloudinary error:" e;
      Server.ConsoleError "Upload error:" e]).
Proof.
  intros Hfd Hget [Hthrow | Hcb].
  - rewrite (POST_run_store_throws store request fd f e Hfd Hget Hthrow).
    unfold Eff.outcome, Eff.events; cbn [fst snd].
    split; [reflexivity|]. split; [right; left; reflexivity|].
    split; [|split; [reflexivity | intros H; congruence]].
    intros label x [H|[H|[]]]; [discriminate H | now inversion H].
  - rewrite (POST_run_store_error store request fd f e Hfd Hget Hcb).
    unfold Eff.outcome, Eff.events; cbn [fst snd].
    split; [reflexivity|]. split; [right; right; left; reflexivity|].
    split; [|split; [intros H; congruence | reflexivity]].
    intros label x [H|[H|[H|[]]]];
      [discriminate H | now inversion H | now inversion H].
Qed.

Lemma POST_upload_failed_witness :
  (Eff.outcome (Server.POST failing_store
                  (upload_request [("file", Server.EntryFile png_part)]) tt)
   = inr (Server.mkResponse 500 (Server.BodyError "Upload failed")) /\
   Eff.events (Server.POST failing_store
                 (upload_request [("file", Server.EntryFile png_part)]) tt)
   = [Server.StoreUpload gallery_options (Server.file_contents png_part);
      Server.ConsoleError "Cloudinary error:" (Err "ECONNRESET api.cloudinary.com");
      Server.ConsoleError "Upload error:" (Err "ECONNRESET api.cloudinary.com")]) /\
  (Eff.outcome (Server.POST unconfigured_store
                  (upload_request [("file", Server.EntryFile png_part)]) tt)
   = inr (Server.mkResponse 500 (Server.BodyError "Upload failed")) /\
   Eff.events (Server.POST unconfigured_store
                 (upload_request [("file", Server.EntryFile png_part)]) tt)
   = [Server.StoreUpload gallery_options (Server.file_contents png_part);
      Server.ConsoleError "Upload error:" (Err "Must supply api_key")]).
Proof.
  destruct (POST_upload_failed failing_store
              (upload_request [("file", Server.EntryFile png_part)])
              [("file", Server.EntryFile png_part)] png_part
              (Err "ECONNRESET api.cloudinary.com") eq_refl eq_refl
              (or_intror eq_refl)) as (H1 & _ & _ & _ & H2).
  destruct (POST_upload_failed unconfigured_store
              (upload_request [("file", Server.EntryFile png_part)])
              [("file", Server.EntryFile png_part)] png_part
              (Err "Must supply api_key") eq_refl eq_refl
              (or_introl eq_refl)) as (H3 & _ & _ & H4 & _).
  split; split; auto.
Defined.

(** Whatever goes wrong, the route itself never throws. *)
Lemma POST_total (store : Server.Store) (request : Server.Request) :
  exists response, Eff.outcome (Server.POST store request tt) = inr response.
Proof.
  unfold Server.POST, Eff.try_catch, Eff.bind, Eff.await, Eff.outcome.
  destruct (Server.formData request) as [x|fd]; [simpl; eauto|].
  unfold Eff.ret at 1.
  destruct (Server.FormData_get fd "file") as [[f|[|c t]]|]; simpl; eauto.
  unfold Server.upload_stream, Eff.bind, Eff.emit, Eff.ret.
  destruct (Server.store_upload store _ _); simpl; eauto.
Qed.

Example POST_scenario_A :
  Eff.outcome (Server.POST working_store
                 (upload_request [("file", Server.EntryFile png_part)]) tt)
  = inr (Server.mkResponse 200
           (Server.BodyDescriptor
              (mkDescriptor "gallery/a" "https://res.example/gallery/a" None None
                 (Some "png") (Some 10) "2024-01-01T00:00:00Z" None))).
Proof. reflexivity. Qed.

(** ** The list route *)

Lemma URLSearchParams_get_None (ps : list (string * string)) (name : string) :
  Server.URLSearchParams_get ps name = None <-> forall v, ~ In (name, v) ps.
Proof.
  induction ps as [|[k v] ps IH]; simpl.
  - split; [intros _ v [] | reflexivity].
  - destruct (String.eqb_spec k name) as [->|Hk].
    + split; [discriminate | intros H; destruct (H v); now left].
    + rewrite IH. split.
      * intros H w [E|Hin]; [congruence | exact (H w Hin)].
      * intros H w Hin. apply (H w). now right.
Qed.

(** The whole run of [GET]: one search, built from the folder, then the
    answer made from what the store returns. *)
Lemma GET_run (store : Server.Store) (request : Server.Request) :
  Server.GET store request tt =
  match Server.store_search store (folder_search (Server.folder_of request)) with
  | inr result =>
      (inr (Server.mkResponse 200
              (Server.BodyImages (map Server.normalize (Server.resources result))
                                 (Server.total_count result))),
       tt,
       [Server.StoreSearch (folder_search (Server.folder_of request))])
  | inl e =>
      (inr (Server.mkResponse 500 (Server.BodyError "Failed to fetch images")),
       tt,
       [Server.StoreSearch (folder_search (Server.folder_of request));
        Server.ConsoleError "Fetch images error:" e])
  end.
Proof.
  unfold Server.GET, Eff.try_catch, Eff.bind, Server.execute, Eff.bind,
    Eff.emit, Eff.await.
  change (Server.max_results 500
            (Server.sort_by "created_at" "desc"
               (Server.expression ("folder:" ++ Server.folder_of request ++ "/*"))))
    with (folder_search (Server.folder_of request)).
  destruct (Server.store_search store _) as [e|result]; reflexivity.
Qed.

Lemma or_else_present (n d : string) : n <> "" -> JS.or_else (Some n) d = n.
Proof. destruct n; [congruence | reflexivity]. Qed.

(** C5, as the code has it.  Every request to the list route makes exactly
    one store search: expression [folder:<folder>/*], sorted by [created_at]
    descending, [max_results] 500.  When the store answers, the response is
    200 with the store's [total_count] and one descriptor per resource, in
    order, with the resource's fields; its [original_filename] is the
    store's when that is present and not empty, and the [public_id] when the
    store's is absent or empty. *)
Theorem GET_search_and_descriptors (store : Server.Store) (request : Server.Request) :
  (exists rest,
      Eff.events (Server.GET store request tt)
      = Server.StoreSearch
          (Server.mkSearch ("folder:" ++ Server.folder_of request ++ "/*")
             [("created_at", "desc")] (Some 500))
        :: rest /\
      filter is_store_search rest = []) /\
  forall result,
    Server.store_search store
      (Server.mkSearch ("folder:" ++ Server.folder_of request ++ "/*")
         [("created_at", "desc")] (Some 500)) = inr result ->
    exists images,
      Eff.outcome (Server.GET store request tt)
      = inr (Server.mkResponse 200
               (Server.BodyImages images (Server.total_count result))) /\
      Forall2
        (fun resource d =>
           public_id d = public_id resource /\
           secure_url d = secure_url resource /\
           d_width d = d_width resource /\
           d_height d = d_height resource /\
           d_format d = d_format resource /\
           d_bytes d = d_bytes resource /\
           created_at d = created_at resource /\
           (forall n, original_filename resource = Some n -> n <> "" ->
                      original_filename d = Some n) /\
           (original_filename resource = None \/
            original_filename resource = Some "" ->
            original_filename d = Some (public_id resource)))
        (Server.resources result) images.
Proof.
  rewrite GET_run. fold (folder_search (Server.folder_of request)). split.
  - destruct (Server.store_search store _); eexists; split; reflexivity.
  - intros result ->. eexists. split; [reflexivity|].
    induction (Server.resources result) as [|r rs IH]; simpl; constructor;
      [|exact IH].
    repeat split; simpl.
    + intros n -> Hn. now rewrite or_else_present.
    + intros [-> | ->]; reflexivity.
Qed.

Lemma GET_search_and_descriptors_witness :
  Server.store_search working_store
    (Server.mkSearch ("folder:" ++ Server.folder_of (list_request [("folder", "pets")]) ++ "/*")
       [("created_at", "desc")] (Some 500))
  = inr (Server.mkSearchResult
           [sample_descriptor "gallery/b" (Some "b");
            sample_descriptor "gallery/a" None] 2) /\
  exists images,
    Eff.outcome (Server.GET working_store (list_request [("folder", "pets")]) tt)
    = inr (Server.mkResponse 200 (Server.BodyImages images 2)) /\
    length images = 2%nat.
Proof.
  split; [reflexivity|].
  destruct (proj2 (GET_search_and_descriptors working_store
                     (list_request [("folder", "pets")])) _ eq_refl)
    as (images & Hout & Hall).
  exists images. split; [exact Hout|].
  symmetry. exact (Forall2_length Hall).
Defined.

Example GET_example :
  Server.GET working_store (list_request [("folder", "pets")]) tt
  = (inr (Server.mkResponse 200
            (Server.BodyImages
               [sample_descriptor "gallery/b" (Some "b");
                sample_descriptor "gallery/a" (Some "gallery/a")] 2)),
     tt,
     [Server.StoreSearch
        (Server.mkSearch "folder:pets/*" [("created_at", "desc")] (Some 500))]).
Proof. reflexivity. Qed.

(** C5 as stated fails: the store reports an image whose [original_filename]
    is present and empty; the descriptor returned for it carries the
    [public_id] in that field, not the store's value. *)
Lemma GET_empty_original_filename :
  Server.store_search failing_store (folder_search "gallery")
  = inr (Server.mkSearchResult [sample_descriptor "gallery/x" (Some "")] 1) /\
  Eff.outcome (Server.GET failing_store (list_request []) tt)
  = inr (Server.mkResponse 200
           (Server.BodyImages [sample_descriptor "gallery/x" (Some "gallery/x")] 1)) /\
  original_filename (sample_descriptor "gallery/x" (Some "gallery/x"))
  <> original_filename (sample_descriptor "gallery/x" (Some "")).
Proof. split; [reflexivity|]. split; [reflexivity | discriminate]. Qed.

(** C8.  Without a [folder] query parameter the search is made for the
    folder "gallery". *)
Theorem GET_default_folder (store : Server.Store) (request : Server.Request) :
  (forall v, ~ In ("folder", v) (Server.searchParams request)) ->
  Server.folder_of request = "gallery" /\
  exists rest,
    Eff.events (Server.GET store request tt)
    = Server.StoreSearch
        (Server.mkSearch "folder:gallery/*" [("created_at", "desc")] (Some 500))
      :: rest.
Proof.
  intros Hnone. apply URLSearchParams_get_None in Hnone.
  assert (Hf : Server.folder_of request = "gallery").
  { unfold Server.folder_of. now rewrite Hnone. }
  split; [exact Hf|].
  rewrite GET_run, Hf.
  destruct (Server.store_search store _); eexists; reflexivity.
Qed.

Lemma GET_default_folder_witness :
  Server.folder_of (list_request [("page", "2")]) = "gallery" /\
  exists rest,
    Eff.events (Server.GET working_store (list_request [("page", "2")]) tt)
    = Server.StoreSearch
        (Server.mkSearch "folder:gallery/*" [("created_at", "desc")] (Some 500))
      :: rest.
Proof.
  apply (GET_default_folder working_store (list_request [("page", "2")])).
  intros v [H|[]]. discriminate H.
Defined.

(** C10.  A [folder] query parameter that is present and empty gives the
    folder "gallery" as well. *)
Theorem GET_empty_folder (store : Server.Store) (request : Server.Request) :
  Server.URLSearchParams_get (Server.searchParams request) "folder" = Some "" ->
  Server.folder_of request = "gallery" /\
  exists rest,
    Eff.events (Server.GET store request tt)
    = Server.StoreSearch
        (Server.mkSearch "folder:gallery/*" [("created_at", "desc")] (Some 500))
      :: rest.
Proof.
  intros Hget.
  assert (Hf : Server.folder_of request = "gallery").
  { unfold Server.folder_of. now rewrite Hget. }
  split; [exact Hf|].
  rewrite GET_run, Hf.
  destruct (Server.store_search store _); eexists; reflexivity.
Qed.

Lemma GET_empty_folder_witness :
  Server.folder_of (list_request [("folder", "")]) = "gallery" /\
  exists rest,
    Eff.events (Server.GET working_store (list_request [("folder", "")]) tt)
    = Server.StoreSearch
        (Server.mkSearch "folder:gallery/*" [("created_at", "desc")] (Some 500))
      :: rest.
Proof.
  apply (GET_empty_folder working_store (list_request [("folder", "")])).
  reflexivity.
Defined.

(* ================================================================== *)
(** * Further properties of the page *)
(* ================================================================== *)

(** ** Loading the image set *)

(** X1.  When the list request resolves to an [ok] response whose body
    holds the images, [fetchImages] replaces the image set by the formatted
    images, in order, issues that one request, shows no alert, and ends with
    [loading] off and every other flag as it was. *)
Theorem fetchImages_success (net : Gallery.Network) (s : Gallery.PageState)
    (imgs : list Descriptor) :
  Gallery.net_images net = inr (Gallery.mkListResponse true (inr imgs)) ->
  Gallery.fetchImages net s
  = (inr tt,
     loaded (map Gallery.formatImage imgs) s,
     [Gallery.SetLoading true;
      Gallery.FetchGet "/api/images?folder=gallery";
      Gallery.SetImages (map Gallery.formatImage imgs);
      Gallery.SetLoading false]).
Proof.
  intros H.
  unfold Gallery.fetchImages, Eff.finally, Eff.try_catch, Gallery.fetch_images,
    Gallery.setLoading, Gallery.setImages, Eff.bind, Eff.emit, Eff.modify,
    Eff.await.
  rewrite H. reflexivity.
Qed.

Lemma fetchImages_success_witness :
  Gallery.net_images working_net
  = inr (Gallery.mkListResponse true
           (inr [sample_descriptor "gallery/a" (Some "a")])) /\
  Gallery.images (Eff.final (Gallery.fetchImages working_net Gallery.initialState))
  = [Gallery.formatImage (sample_descriptor "gallery/a" (Some "a"))].
Proof.
  split; [reflexivity|].
  rewrite (fetchImages_success working_net Gallery.initialState
             [sample_descriptor "gallery/a" (Some "a")] eq_refl).
  reflexivity.
Defined.

(** X2.  In every other case (the request is rejected, the response is not
    [ok], or its body cannot be read) [fetchImages] keeps the image set it
    had, logs the error, shows the one alert "Failed to load images. Please
    refresh the page." and ends with [loading] off.  For a response that is
    not [ok] the logged error is "Failed to fetch images" whatever the body
    says. *)
Theorem fetchImages_failure (net : Gallery.Network) (s : Gallery.PageState) :
  (forall imgs,
      Gallery.net_images net <> inr (Gallery.mkListResponse true (inr imgs))) ->
  exists e,
    Gallery.fetchImages net s
    = (inr tt,
       loaded (Gallery.images s) s,
       [Gallery.SetLoading true;
        Gallery.FetchGet "/api/images?folder=gallery";
        Gallery.ConsoleError "Error fetching images:" e;
        Gallery.Alert "Failed to load images. Please refresh the page.";
        Gallery.SetLoading false]) /\
    (forall body,
        Gallery.net_images net = inr (Gallery.mkListResponse false body) ->
        e = Err "Failed to fetch images").
Proof.
  intros H.
  unfold Gallery.fetchImages, Eff.finally, Eff.try_catch, Gallery.fetch_images,
    Gallery.setLoading, Gallery.setImages, Gallery.console_error, Gallery.alert,
    Eff.bind, Eff.emit, Eff.modify, Eff.await, Eff.throw, Eff.ret.
  destruct (Gallery.net_images net) as [x|[ok [y|imgs]]] eqn:E.
  - exists x. split; [reflexivity | intros body Hb; discriminate Hb].
  - destruct ok.
    + exists y. split; [reflexivity | intros body Hb; discriminate Hb].
    + exists (Err "Failed to fetch images"). split; reflexivity.
  - destruct ok.
    + destruct (H imgs eq_refl).
    + exists (Err "Failed to fetch images"). split; reflexivity.
Qed.

Lemma fetchImages_failure_witness :
  exists e,
    Gallery.fetchImages list_down_net Gallery.initialState
    = (inr tt,
       loaded [] Gallery.initialState,
       [Gallery.SetLoading true;
        Gallery.FetchGet "/api/images?folder=gallery";
        Gallery.ConsoleError "Error fetching images:" e;
        Gallery.Alert "Failed to load images. Please refresh the page.";
        Gallery.SetLoading false]) /\
    e = Err "Failed to fetch images".
Proof.
  assert (H : forall imgs,
             Gallery.net_images list_down_net
             <> inr (Gallery.mkListResponse true (inr imgs))).
  { intros imgs E. discriminate E. }
  destruct (fetchImages_failure list_down_net Gallery.initialState H)
    as (e & Hrun & He).
  exists e. split; [exact Hrun | exact (He _ eq_refl)].
Defined.

(** X3.  Whatever the network does, [fetchImages] never throws, leaves
    [loading] off, leaves [uploading], [dragActive], [viewMode] and
    [searchTerm] as they were, issues exactly one request, the list request,
    and shows at most one alert. *)
Theorem fetchImages_always (net : Gallery.Network) (s : Gallery.PageState) :
  Eff.outcome (Gallery.fetchImages net s) = inr tt /\
  Gallery.loading (Eff.final (Gallery.fetchImages net s)) = false /\
  Gallery.uploading (Eff.final (Gallery.fetchImages net s)) = Gallery.uploading s /\
  Gallery.dragActive (Eff.final (Gallery.fetchImages net s)) = Gallery.dragActive s /\
  Gallery.viewMode (Eff.final (Gallery.fetchImages net s)) = Gallery.viewMode s /\
  Gallery.searchTerm (Eff.final (Gallery.fetchImages net s)) = Gallery.searchTerm s /\
  filter is_list_fetch (Eff.events (Gallery.fetchImages net s))
  = [Gallery.FetchGet "/api/images?folder=gallery"] /\
  filter is_upload_call (Eff.events (Gallery.fetchImages net s)) = [] /\
  (length (filter is_alert (Eff.events (Gallery.fetchImages net s))) <= 1)%nat.
Proof.
  unfold Gallery.fetchImages, Eff.finally, Eff.try_catch, Gallery.fetch_images,
    Gallery.setLoading, Gallery.setImages, Gallery.console_error, Gallery.alert,
    Eff.bind, Eff.emit, Eff.modify, Eff.await, Eff.throw, Eff.ret,
    Eff.outcome, Eff.final, Eff.events.
  destruct (Gallery.net_images net) as [x|[ok [y|imgs]]];
    [|destruct ok|destruct ok]; cbn; repeat split; auto.
Qed.

(** The two ways a run of [fetchImages] can go. *)
Lemma fetchImages_cases (net : Gallery.Network) (s : Gallery.PageState) :
  (exists imgs,
      Gallery.net_images net = inr (Gallery.mkListResponse true (inr imgs)) /\
      Gallery.fetchImages net s
      = (inr tt, loaded (map Gallery.formatImage imgs) s,
         [Gallery.SetLoading true;
          Gallery.FetchGet Gallery.images_url;
          Gallery.SetImages (map Gallery.formatImage imgs);
          Gallery.SetLoading false])) \/
  (exists e,
      (forall imgs,
          Gallery.net_images net <> inr (Gallery.mkListResponse true (inr imgs))) /\
      Gallery.fetchImages net s
      = (inr tt, loaded (Gallery.images s) s,
         [Gallery.SetLoading true;
          Gallery.FetchGet Gallery.images_url;
          Gallery.ConsoleError "Error fetching images:" e;
          Gallery.Alert "Failed to load images. Please refresh the page.";
          Gallery.SetLoading false])).
Proof.
  unfold Gallery.fetchImages, Eff.finally, Eff.try_catch, Gallery.fetch_images,
    Gallery.setLoading, Gallery.setImages, Gallery.console_error, Gallery.alert,
    Eff.bind, Eff.emit, Eff.modify, Eff.await, Eff.throw, Eff.ret.
  destruct (Gallery.net_images net) as [x|[ok [y|imgs]]];
    [|destruct ok|destruct ok];
    try (left; eexists; split; reflexivity);
    right; eexists; (split; [intros imgs' E; discriminate E | reflexivity]).
Qed.

(** ** Names shown for the images *)

Lemma split_not_nil (sep : ascii) (s : string) : JS.split sep s <> [].
Proof.
  destruct s as [|c r]; simpl; [discriminate|].
  destruct (Ascii.eqb c sep); [discriminate|].
  destruct (JS.split sep r); discriminate.
Qed.

Lemma pop_cons {A : Type} (x : A) (l : list A) :
  l <> [] -> JS.pop (x :: l) = JS.pop l.
Proof. destruct l; [congruence | reflexivity]. Qed.

Lemma split_free (sep : ascii) (s : string) :
  free_of sep s -> JS.split sep s = [s].
Proof.
  induction s as [|c r IH]; simpl; [reflexivity|].
  intros [Hc Hr]. destruct (Ascii.eqb_spec c sep) as [E|_]; [contradiction|].
  now rewrite (IH Hr).
Qed.

Lemma split_two (sep : ascii) (pre base : string) :
  exists h1 h2 t, JS.split sep (pre ++ String sep base) = h1 :: h2 :: t.
Proof.
  induction pre as [|c pre IH]; simpl.
  - rewrite Ascii.eqb_refl.
    destruct (JS.split sep base) as [|h t] eqn:E;
      [destruct (split_not_nil sep base E) | eauto].
  - destruct IH as (h1 & h2 & t & ->).
    destruct (Ascii.eqb c sep); eauto.
Qed.

(** After the last separator comes the element that [pop] returns. *)
Lemma pop_split_after (sep : ascii) (pre base : string) :
  JS.pop (JS.split sep (pre ++ String sep base)) = JS.pop (JS.split sep base).
Proof.
  induction pre as [|c pre IH]; simpl.
  - rewrite Ascii.eqb_refl. apply pop_cons, split_not_nil.
  - destruct (split_two sep pre base) as (h1 & h2 & t & E).
    rewrite E in *. destruct (Ascii.eqb c sep); exact IH.
Qed.

Lemma or_else_not_empty (a : option string) (d : string) :
  d <> "" -> JS.or_else a d <> "".
Proof.
  intros Hd. destruct a as [[|c r]|]; simpl; [exact Hd | discriminate | exact Hd].
Qed.

(** X4.  The name shown for a listed image is never empty.  It is the
    recorded file name when that is present and not empty; without one it is
    what follows the last "/" of the public id (the whole id when it has no
    "/"), and "Unknown" when that is empty too. *)
Theorem formatImage_originalName (img : Descriptor) :
  Gallery.originalName (Gallery.formatImage img) <> "" /\
  (forall n, original_filename img = Some n -> n <> "" ->
             Gallery.originalName (Gallery.formatImage img) = n) /\
  (original_filename img = None \/ original_filename img = Some "" ->
   (forall dir base,
       public_id img = dir ++ "/" ++ base -> free_of "/" base -> base <> "" ->
       Gallery.originalName (Gallery.formatImage img) = base) /\
   (free_of "/" (public_id img) -> public_id img <> "" ->
    Gallery.originalName (Gallery.formatImage img) = public_id img) /\
   (forall dir,
       public_id img = dir ++ "/" \/ public_id img = "" ->
       Gallery.originalName (Gallery.formatImage img) = "Unknown")).
Proof.
  unfold Gallery.formatImage; cbn [Gallery.originalName]. split; [|split].
  - apply or_else_not_empty. discriminate.
  - intros n -> Hn. destruct n; [congruence | reflexivity].
  - intros Hnone.
    assert (E : JS.or_opt (original_filename img)
                  (JS.pop (JS.split "/" (public_id img)))
                = JS.pop (JS.split "/" (public_id img))).
    { destruct Hnone as [-> | ->]; reflexivity. }
    rewrite E. split; [|split].
    + intros dir base -> Hfree Hbase.
      change (dir ++ "/" ++ base) with (dir ++ String "/" base).
      rewrite pop_split_after, (split_free _ _ Hfree). simpl.
      destruct base; [congruence | reflexivity].
    + intros Hfree Hne. rewrite (split_free _ _ Hfree). simpl.
      destruct (public_id img); [congruence | reflexivity].
    + intros dir [-> | ->]; [|reflexivity].
      change (dir ++ "/") with (dir ++ String "/" "").
      rewrite pop_split_after. reflexivity.
Qed.

Lemma formatImage_originalName_witness :
  Gallery.originalName
    (Gallery.formatImage (sample_descriptor "gallery/pets/cat" None)) = "cat" /\
  Gallery.originalName
    (Gallery.formatImage (sample_descriptor "gallery/pets/cat" (Some "Tom"))) = "Tom" /\
  Gallery.originalName
    (Gallery.formatImage (sample_descriptor "cat" (Some ""))) = "cat" /\
  Gallery.originalName
    (Gallery.formatImage (sample_descriptor "gallery/" None)) = "Unknown".
Proof.
  split; [|split; [|split]].
  - refine (proj1 (proj2 (proj2 (formatImage_originalName
              (sample_descriptor "gallery/pets/cat" None))) (or_introl eq_refl))
              "gallery/pets" "cat" eq_refl _ _).
    + simpl. repeat split; discriminate.
    + discriminate.
  - refine (proj1 (proj2 (formatImage_originalName
              (sample_descriptor "gallery/pets/cat" (Some "Tom")))) "Tom" eq_refl _).
    discriminate.
  - refine (proj1 (proj2 (proj2 (proj2 (formatImage_originalName
              (sample_descriptor "cat" (Some "")))) (or_intror eq_refl))) _ _).
    + simpl. repeat split; discriminate.
    + discriminate.
  - exact (proj2 (proj2 (proj2 (proj2 (formatImage_originalName
             (sample_descriptor "gallery/" None))) (or_introl eq_refl)))
             "gallery" (or_introl eq_refl)).
Defined.

(** X5.  The list route followed by the page: for a resource the store
    reports, the page shows the recorded file name when there is a non-empty
    one, otherwise the whole public id, folder included, and "Unknown" only
    when the public id is empty; the id, the public id and the url are the
    store's.  (The route has already filled in the name, so the page never
    cuts the public id at its last "/".) *)
Theorem formatImage_after_normalize (resource : Descriptor) :
  (forall n, original_filename resource = Some n -> n <> "" ->
             Gallery.originalName (Gallery.formatImage (Server.normalize resource)) = n) /\
  (original_filename resource = None \/ original_filename resource = Some "" ->
   (public_id resource <> "" ->
    Gallery.originalName (Gallery.formatImage (Server.normalize resource))
    = public_id resource) /\
   (public_id resource = "" ->
    Gallery.originalName (Gallery.formatImage (Server.normalize resource))
    = "Unknown")) /\
  Gallery.id (Gallery.formatImage (Server.normalize resource)) = public_id resource /\
  Gallery.publicId (Gallery.formatImage (Server.normalize resource))
  = public_id resource /\
  Gallery.url (Gallery.formatImage (Server.normalize resource)) = secure_url resource.
Proof.
  unfold Gallery.formatImage, Server.normalize;
    cbn [Gallery.originalName Gallery.id Gallery.publicId Gallery.url
         original_filename public_id secure_url].
  split; [|split; [|repeat split]].
  - intros n -> Hn. destruct n; [congruence | reflexivity].
  - intros Hnone.
    assert (E : JS.or_else (original_filename resource) (public_id resource)
                = public_id resource).
    { destruct Hnone as [-> | ->]; reflexivity. }
    rewrite E. split.
    + intros Hne. destruct (public_id resource); [congruence | reflexivity].
    + intros ->. reflexivity.
Qed.

Lemma formatImage_after_normalize_witness :
  Gallery.originalName
    (Gallery.formatImage (Server.normalize (sample_descriptor "gallery/cat" (Some "Tom"))))
  = "Tom" /\
  Gallery.originalName
    (Gallery.formatImage (Server.normalize (sample_descriptor "gallery/cat" None)))
  = "gallery/cat" /\
  Gallery.originalName
    (Gallery.formatImage (Server.normalize (sample_descriptor "" (Some ""))))
  = "Unknown".
Proof.
  split; [|split].
  - refine (proj1 (formatImage_after_normalize
                     (sample_descriptor "gallery/cat" (Some "Tom"))) "Tom" eq_refl _).
    discriminate.
  - refine (proj1 (proj1 (proj2 (formatImage_after_normalize
                     (sample_descriptor "gallery/cat" None))) (or_introl eq_refl)) _).
    discriminate.
  - exact (proj2 (proj1 (proj2 (formatImage_after_normalize
                     (sample_descriptor "" (Some "")))) (or_intror eq_refl)) eq_refl).
Defined.

(** ** One upload call *)

(** X6.  A call of [uploadToCloudinary] issues one POST of the file to
    /api/upload under the field "file", never throws at the call and leaves
    the page state alone.  Its promise is rejected with the reason of a
    rejected request; for a response that is not [ok] it is rejected with
    the server's [error] text, or with "Upload failed" when that text is
    missing or empty; for an [ok] response it resolves to an image that has
    the descriptor's id and url and the name of the local file. *)
Theorem uploadToCloudinary_outcomes (net : Gallery.Network) (file : Gallery.File)
    (s : Gallery.PageState) :
  (exists p,
      Gallery.uploadToCloudinary net file s
      = (inr p, s, [Gallery.FetchPostFile "/api/upload" "file" file]) /\
      (forall x, Gallery.net_upload net file = inl x -> p = inl x) /\
      (forall m, Gallery.net_upload net file
                 = inr (Gallery.UploadNotOk (inr (Some m))) ->
                 m <> "" -> p = inl (Err m)) /\
      (Gallery.net_upload net file = inr (Gallery.UploadNotOk (inr None)) \/
       Gallery.net_upload net file = inr (Gallery.UploadNotOk (inr (Some ""))) ->
       p = inl (Err "Upload failed")) /\
      (forall d, Gallery.net_upload net file = inr (Gallery.UploadOk (inr d)) ->
                 exists img,
                   p = inr img /\
                   Gallery.id img = public_id d /\
                   Gallery.publicId img = public_id d /\
                   Gallery.url img = secure_url d /\
                   Gallery.originalName img = Gallery.name file /\
                   Gallery.bytes img = d_bytes d)).
Proof.
  unfold Gallery.uploadToCloudinary, Eff.async, Gallery.fetch_upload, Eff.bind,
    Eff.emit, Eff.await, Eff.throw, Eff.ret.
  destruct (Gallery.net_upload net file) as [x|[[x|e]|[x|d]]];
    eexists; (split; [reflexivity|]);
    (split; [intros ? H; inversion H; subst; reflexivity|]);
    (split; [intros ? H Hm; inversion H; subst|]);
    try (split; [intros [H|H]; inversion H; subst; reflexivity|]);
    try (intros ? H; inversion H; subst; eexists; repeat split).
  destruct m; [congruence | reflexivity].
Qed.

Lemma uploadToCloudinary_outcomes_witness :
  exists p,
    Gallery.uploadToCloudinary
      (Gallery.mkNetwork (inl (Err "offline"))
         (fun _ => inr (Gallery.UploadNotOk (inr (Some "No file provided")))))
      a_png Gallery.initialState
    = (inr p, Gallery.initialState,
       [Gallery.FetchPostFile "/api/upload" "file" a_png]) /\
    p = inl (Err "No file provided").
Proof.
  destruct (uploadToCloudinary_outcomes
              (Gallery.mkNetwork (inl (Err "offline"))
                 (fun _ => inr (Gallery.UploadNotOk (inr (Some "No file provided")))))
              a_png Gallery.initialState) as (p & Hrun & _ & Hmsg & _).
  exists p. split; [exact Hrun|].
  apply (Hmsg "No file provided" eq_refl). discriminate.
Defined.

(** ** A batch of selected files *)

Lemma loaded_frame (imgs : list Gallery.UploadedImage) (s : Gallery.PageState) :
  Gallery.dragActive (loaded imgs s) = Gallery.dragActive s /\
  Gallery.viewMode (loaded imgs s) = Gallery.viewMode s /\
  Gallery.searchTerm (loaded imgs s) = Gallery.searchTerm s.
Proof. repeat split. Qed.

Lemma handleFileUpload_total_frame (net : Gallery.Network)
    (files : option (list Gallery.File)) (s : Gallery.PageState) :
  Eff.outcome (Gallery.handleFileUpload net files s) = inr tt /\
  (length (filter is_alert (Eff.events (Gallery.handleFileUpload net files s))) <= 1)%nat /\
  Gallery.dragActive (Eff.final (Gallery.handleFileUpload net files s))
  = Gallery.dragActive s /\
  Gallery.viewMode (Eff.final (Gallery.handleFileUpload net files s))
  = Gallery.viewMode s /\
  Gallery.searchTerm (Eff.final (Gallery.handleFileUpload net files s))
  = Gallery.searchTerm s.
Proof.
  destruct files as [[|f fs]|]; [cbn; repeat split; auto | | cbn; repeat split; auto].
  rewrite handleFileUpload_run.
  destruct (Eff.promise_all _) as [x|imgs];
    unfold Eff.outcome, Eff.final, Eff.events; cbn [fst snd].
  - split; [reflexivity|]. split; [|repeat split].
    cbn [filter is_alert]. rewrite filter_app, filter_alert_upload_calls.
    cbn. auto.
  - split; [reflexivity|].
    destruct (fetchImages_cases net (with_uploading true s))
      as [(l & _ & ->) | (e & _ & ->)]; cbn [fst snd];
      (split; [|repeat split]);
      cbn [filter is_alert]; rewrite filter_app, filter_alert_upload_calls;
      cbn; auto.
Qed.

(** X7.  Whatever is selected and whatever the network does,
    [handleFileUpload] never throws, shows at most one alert, and leaves
    [dragActive], [viewMode] and [searchTerm] as they were. *)
Theorem handleFileUpload_always (net : Gallery.Network)
    (files : option (list Gallery.File)) (s : Gallery.PageState) :
  Eff.outcome (Gallery.handleFileUpload net files s) = inr tt /\
  (length (filter is_alert (Eff.events (Gallery.handleFileUpload net files s))) <= 1)%nat /\
  Gallery.dragActive (Eff.final (Gallery.handleFileUpload net files s))
  = Gallery.dragActive s /\
  Gallery.viewMode (Eff.final (Gallery.handleFileUpload net files s))
  = Gallery.viewMode s /\
  Gallery.searchTerm (Eff.final (Gallery.handleFileUpload net files s))
  = Gallery.searchTerm s.
Proof. exact (handleFileUpload_total_frame net files s). Qed.

(** X8.  The image set after a non-empty batch is never built from the
    uploads themselves.  When an upload fails it is the set from before;
    when all succeed it is the formatted answer of the list request, or the
    set from before when that request fails. *)
Theorem handleFileUpload_image_set (net : Gallery.Network) (f : Gallery.File)
    (fs : list Gallery.File) (s : Gallery.PageState) :
  (forallb (upload_succeeds net) (filter is_image_file (f :: fs)) = false ->
   Gallery.images (Eff.final (Gallery.handleFileUpload net (Some (f :: fs)) s))
   = Gallery.images s) /\
  (forallb (upload_succeeds net) (filter is_image_file (f :: fs)) = true ->
   (forall imgs,
       Gallery.net_images net = inr (Gallery.mkListResponse true (inr imgs)) ->
       Gallery.images (Eff.final (Gallery.handleFileUpload net (Some (f :: fs)) s))
       = map Gallery.formatImage imgs) /\
   ((forall imgs,
        Gallery.net_images net <> inr (Gallery.mkListResponse true (inr imgs))) ->
    Gallery.images (Eff.final (Gallery.handleFileUpload net (Some (f :: fs)) s))
    = Gallery.images s)).
Proof.
  rewrite handleFileUpload_run.
  pose proof (promise_all_cases net (filter is_image_file (f :: fs))) as Hc.
  destruct (forallb (upload_succeeds net) (filter is_image_file (f :: fs))).
  - destruct Hc as [l ->]. split; [discriminate|]. intros _.
    unfold Eff.final; cbn [fst snd].
    destruct (fetchImages_cases net (with_uploading true s))
      as [(l' & Hok & ->) | (e & Hbad & ->)]; cbn [fst snd]; split.
    + intros imgs H. rewrite Hok in H. now inversion H.
    + intros H. destruct (H l' Hok).
    + intros imgs H. destruct (Hbad imgs H).
    + reflexivity.
  - destruct Hc as [x ->]. split; [reflexivity | discriminate].
Qed.

Lemma handleFileUpload_image_set_witness :
  Gallery.images
    (Eff.final (Gallery.handleFileUpload failing_net (Some [a_png])
                  Gallery.initialState)) = [] /\
  Gallery.images
    (Eff.final (Gallery.handleFileUpload working_net (Some [a_png; notes_txt])
                  Gallery.initialState))
  = [Gallery.formatImage (sample_descriptor "gallery/a" (Some "a"))].
Proof.
  split.
  - exact (proj1 (handleFileUpload_image_set failing_net a_png []
                    Gallery.initialState) eq_refl).
  - exact (proj1 (proj2 (handleFileUpload_image_set working_net a_png [notes_txt]
                           Gallery.initialState) eq_refl) _ eq_refl).
Defined.

(** X9.  A non-empty selection without a single image file sends no upload
    and shows no upload alert, but it still raises [uploading], runs the
    list request once, and lowers [uploading] again. *)
Theorem handleFileUpload_no_image_file (net : Gallery.Network) (f : Gallery.File)
    (fs : list Gallery.File) (s : Gallery.PageState) :
  forallb (fun file => negb (JS.startsWith (Gallery.type file) "image/")) (f :: fs)
  = true ->
  Eff.events (Gallery.handleFileUpload net (Some (f :: fs)) s)
  = (Gallery.SetUploading true
       :: Eff.events (Gallery.fetchImages net (with_uploading true s))
       ++ [Gallery.SetUploading false])%list /\
  filter is_upload_call (Eff.events (Gallery.handleFileUpload net (Some (f :: fs)) s))
  = [] /\
  filter is_list_fetch (Eff.events (Gallery.handleFileUpload net (Some (f :: fs)) s))
  = [Gallery.FetchGet "/api/images?folder=gallery"] /\
  ~ In (Gallery.Alert "Upload failed. Please try again.")
       (Eff.events (Gallery.handleFileUpload net (Some (f :: fs)) s)).
Proof.
  intros Hnone.
  assert (Hsel : filter is_image_file (f :: fs) = []).
  { revert Hnone. generalize (f :: fs). intros l.
    induction l as [|g l IH]; [reflexivity|].
    cbn [forallb filter]. unfold is_image_file at 1.
    destruct (JS.startsWith (Gallery.type g) "image/"); [discriminate|].
    exact IH. }
  rewrite handleFileUpload_run, Hsel. cbn [map Eff.promise_all app].
  unfold Eff.events; cbn [snd].
  split; [reflexivity|].
  destruct (fetchImages_cases net (with_uploading true s))
    as [(l & _ & ->) | (e & _ & ->)]; cbn [snd].
  - repeat split. cbn. intros H.
    repeat (destruct H as [H|H]; [discriminate H|]). exact H.
  - repeat split. cbn. intros H.
    repeat (destruct H as [H|H]; [discriminate H|]). exact H.
Qed.

Lemma handleFileUpload_no_image_file_witness :
  filter is_upload_call
    (Eff.events (Gallery.handleFileUpload working_net (Some [notes_txt])
                   Gallery.initialState)) = [] /\
  filter is_list_fetch
    (Eff.events (Gallery.handleFileUpload working_net (Some [notes_txt])
                   Gallery.initialState))
  = [Gallery.FetchGet "/api/images?folder=gallery"].
Proof.
  destruct (handleFileUpload_no_image_file working_net notes_txt []
              Gallery.initialState eq_refl) as (_ & H1 & H2 & _).
  split; assumption.
Defined.

(** ** Sizes and dimensions shown on a card *)

(** X10.  For a byte count from 1 up to, but not including, 1024^4 the text
    is a number of hundredths [h], a space, and the unit at the index [i] of
    the whole base-1024 logarithm; the shown value [h/100] lies between 1
    and 1024 and is [b / 1024^i] rounded to the nearest hundredth. *)
Theorem formatFileSize_scaled (b : N) :
  0 < b < 1024 ^ 4 ->
  exists i u h,
    i < 4 /\
    nth_error Gallery.sizes (N.to_nat i) = Some u /\
    1024 ^ i <= b < 1024 ^ (i + 1) /\
    Gallery.formatFileSize (Some b) = JS.hundredths_toString h ++ " " ++ u /\
    100 <= h <= 102400 /\
    2 * h * 1024 ^ i <= 200 * b + 1024 ^ i /\
    200 * b < 2 * h * 1024 ^ i + 1024 ^ i.
Proof.
  intros [Hpos Hlt].
  destruct (formatFileSize_unit b (conj Hpos Hlt)) as (u & Hu & Hfmt).
  destruct (floor_log1024_bounds b Hpos) as [Hlo Hhi].
  set (i := JS.floor_log1024 b) in *.
  assert (Hi : i < 4).
  { destruct (N.lt_ge_cases i 4) as [H|H]; [exact H|].
    exfalso. apply (N.pow_le_mono_r 1024) in H; lia. }
  exists i, u, (JS.round_hundredths b i).
  unfold JS.round_hundredths.
  set (P := 1024 ^ i) in *.
  assert (HP : P <> 0) by (apply N.pow_nonzero; lia).
  assert (Hhi' : b < 1024 * P).
  { unfold P. rewrite N.add_1_r, N.pow_succ_r' in Hhi. exact Hhi. }
  assert (Hdm := N.div_mod (200 * b + P) (2 * P) ltac:(lia)).
  assert (Hm := N.mod_upper_bound (200 * b + P) (2 * P) ltac:(lia)).
  set (h := (200 * b + P) / (2 * P)) in *.
  set (r := (200 * b + P) mod (2 * P)) in *.
  repeat split; try assumption; try nia.
Qed.

Lemma formatFileSize_scaled_witness :
  exists i u h,
    i < 4 /\
    nth_error Gallery.sizes (N.to_nat i) = Some u /\
    1024 ^ i <= 1536 < 1024 ^ (i + 1) /\
    Gallery.formatFileSize (Some 1536) = JS.hundredths_toString h ++ " " ++ u /\
    100 <= h <= 102400 /\
    2 * h * 1024 ^ i <= 200 * 1536 + 1024 ^ i /\
    200 * 1536 < 2 * h * 1024 ^ i + 1024 ^ i.
Proof.
  apply (formatFileSize_scaled 1536). split; reflexivity.
Defined.

(** X11.  From 1024^4 bytes on the index runs past the four units: the text
    ends in " undefined", whatever number stands before it. *)
Theorem formatFileSize_beyond_GB (b : N) :
  1024 ^ 4 <= b ->
  exists shown, Gallery.formatFileSize (Some b) = shown ++ " undefined".
Proof.
  intros Hb.
  assert (Hpos : 0 < b) by (change (1024 ^ 4) with 1099511627776 in Hb; lia).
  assert (Hi : 4 <= JS.floor_log1024 b).
  { unfold JS.floor_log1024.
    assert (H40 : 40 <= N.log2 b).
    { change 40 with (N.log2 (1024 ^ 4)). now apply N.log2_le_mono. }
    change 4 with (40 / 10). now apply N.Div0.div_le_mono. }
  unfold Gallery.formatFileSize.
  destruct (N.eqb_spec b 0) as [E|_]; [lia|].
  cbv zeta. unfold JS.index_text.
  assert (Hn : nth_error Gallery.sizes (N.to_nat (JS.floor_log1024 b)) = None).
  { apply nth_error_None. simpl. lia. }
  rewrite Hn. eexists. reflexivity.
Qed.

Lemma formatFileSize_beyond_GB_witness :
  exists shown,
    Gallery.formatFileSize (Some (5 * 1024 ^ 4)) = shown ++ " undefined".
Proof.
  apply (formatFileSize_beyond_GB (5 * 1024 ^ 4)).
  vm_compute. discriminate.
Defined.

Lemma decimal_starts_with_digit (n : N) :
  exists c r, JS.decimal n = String c r /\ c <> "U"%char.
Proof.
  unfold JS.decimal, NilZero.string_of_uint.
  destruct (N.to_uint n); simpl; eexists _, _; split;
    try reflexivity; discriminate.
Qed.

(** X12.  [getImageDimensions] gives "Unknown" exactly when the width or the
    height is missing or zero, and otherwise the two numbers around " × ". *)
Theorem getImageDimensions_spec (image : Gallery.UploadedImage) :
  (Ui.getImageDimensions image = "Unknown" <->
   Gallery.width image = None \/ Gallery.width image = Some 0 \/
   Gallery.height image = None \/ Gallery.height image = Some 0) /\
  (forall w h,
      Gallery.width image = Some w -> Gallery.height image = Some h ->
      w <> 0 -> h <> 0 ->
      Ui.getImageDimensions image = JS.decimal w ++ " × " ++ JS.decimal h).
Proof.
  unfold Ui.getImageDimensions, Ui.truthy_number.
  destruct (Gallery.width image) as [w|]; [|split; [tauto | discriminate]].
  destruct (Gallery.height image) as [h|];
    [|split; [tauto | intros ? ? _ H; discriminate H]].
  destruct (N.eqb_spec w 0) as [->|Hw]; cbn [negb andb].
  { split; [tauto | intros ? ? H _ Hn _; inversion H; congruence]. }
  destruct (N.eqb_spec h 0) as [->|Hh]; cbn [negb andb].
  { split; [tauto | intros ? ? _ H _ Hn; inversion H; congruence]. }
  split.
  - split.
    + intros H. exfalso.
      destruct (decimal_starts_with_digit w) as (c & r & E & Hc).
      rewrite E in H. simpl in H. congruence.
    + intros [H|[H|[H|H]]]; congruence.
  - intros w' h' H1 H2 _ _. inversion H1; inversion H2; reflexivity.
Qed.

Lemma getImageDimensions_spec_witness :
  Ui.getImageDimensions (sample_image "gallery/a" "a") = "640 × 480".
Proof.
  rewrite (proj2 (getImageDimensions_spec (sample_image "gallery/a" "a"))
             640 480 eq_refl eq_refl); [reflexivity | discriminate | discriminate].
Defined.

(** ** Drag and drop *)

Lemma lift_run {A : Type} (m : Gallery.Page A) (s : Gallery.PageState) :
  Ui.lift m s
  = (Eff.outcome (m s), Eff.final (m s), map Ui.Page (Eff.events (m s))).
Proof. unfold Ui.lift. destruct (m s) as [[r s1] t]. reflexivity. Qed.

(** X13.  [handleDrag] always cancels the default action and the
    propagation of the event and runs nothing of the page (no request, no
    alert).  "dragenter" and "dragover" raise [dragActive], "dragleave"
    lowers it, and any other event type leaves the whole state as it was;
    no other flag is ever touched. *)
Theorem handleDrag_spec (e_type : string) (s : Gallery.PageState) :
  (e_type = "dragenter" \/ e_type = "dragover" ->
   Ui.handleDrag e_type s
   = (inr tt, with_dragActive true s,
      [Ui.PreventDefault; Ui.StopPropagation; Ui.SetDragActive true])) /\
  (e_type = "dragleave" ->
   Ui.handleDrag e_type s
   = (inr tt, with_dragActive false s,
      [Ui.PreventDefault; Ui.StopPropagation; Ui.SetDragActive false])) /\
  (e_type <> "dragenter" -> e_type <> "dragover" -> e_type <> "dragleave" ->
   Ui.handleDrag e_type s
   = (inr tt, s, [Ui.PreventDefault; Ui.StopPropagation])) /\
  filter is_page_event (Eff.events (Ui.handleDrag e_type s)) = [] /\
  Gallery.images (Eff.final (Ui.handleDrag e_type s)) = Gallery.images s /\
  Gallery.uploading (Eff.final (Ui.handleDrag e_type s)) = Gallery.uploading s /\
  Gallery.loading (Eff.final (Ui.handleDrag e_type s)) = Gallery.loading s /\
  Gallery.viewMode (Eff.final (Ui.handleDrag e_type s)) = Gallery.viewMode s /\
  Gallery.searchTerm (Eff.final (Ui.handleDrag e_type s)) = Gallery.searchTerm s.
Proof.
  unfold Ui.handleDrag, Ui.setDragActive, Eff.bind, Eff.emit, Eff.modify, Eff.ret,
    Eff.final, Eff.events.
  destruct (String.eqb_spec e_type "dragenter") as [E1|N1];
    [|destruct (String.eqb_spec e_type "dragover") as [E2|N2];
      [|destruct (String.eqb_spec e_type "dragleave") as [E3|N3]]];
    cbn [orb fst snd app filter is_page_event];
    (split; [try reflexivity; intros [H|H]; congruence|]);
    (split; [try reflexivity; intros H; try subst; congruence|]);
    (split; [try reflexivity; intros; congruence|]);
    repeat split.
Qed.

Lemma handleDrag_spec_witness :
  Ui.handleDrag "dragover" Gallery.initialState
  = (inr tt, with_dragActive true Gallery.initialState,
     [Ui.PreventDefault; Ui.StopPropagation; Ui.SetDragActive true]) /\
  Ui.handleDrag "dragleave" (with_dragActive true Gallery.initialState)
  = (inr tt, with_dragActive false (with_dragActive true Gallery.initialState),
     [Ui.PreventDefault; Ui.StopPropagation; Ui.SetDragActive false]) /\
  Ui.handleDrag "dragend" Gallery.initialState
  = (inr tt, Gallery.initialState, [Ui.PreventDefault; Ui.StopPropagation]).
Proof.
  split; [|split].
  - exact (proj1 (handleDrag_spec "dragover" Gallery.initialState)
             (or_intror eq_refl)).
  - exact (proj1 (proj2 (handleDrag_spec "dragleave"
                           (with_dragActive true Gallery.initialState))) eq_refl).
  - apply (proj1 (proj2 (proj2 (handleDrag_spec "dragend" Gallery.initialState))));
      discriminate.
Defined.

(** X14.  A drop cancels the event, lowers [dragActive], and then does
    exactly what [handleFileUpload] does with the dropped files from that
    state; it never throws and [dragActive] is off when it is done.  A drop
    of no file changes nothing else and sends nothing. *)
Theorem handleDrop_spec (net : Gallery.Network) (files : list Gallery.File)
    (s : Gallery.PageState) :
  Eff.outcome (Ui.handleDrop net files s) = inr tt /\
  Eff.final (Ui.handleDrop net files s)
  = Eff.final (Gallery.handleFileUpload net (Some files) (with_dragActive false s)) /\
  Eff.events (Ui.handleDrop net files s)
  = ([Ui.PreventDefault; Ui.StopPropagation; Ui.SetDragActive false]
       ++ map Ui.Page
            (Eff.events (Gallery.handleFileUpload net (Some files)
                           (with_dragActive false s))))%list /\
  Gallery.dragActive (Eff.final (Ui.handleDrop net files s)) = false /\
  Ui.handleDrop net [] s
  = (inr tt, with_dragActive false s,
     [Ui.PreventDefault; Ui.StopPropagation; Ui.SetDragActive false]).
Proof.
  assert (Hrun : Ui.handleDrop net files s
    = (inr tt,
       Eff.final (Gallery.handleFileUpload net (Some files) (with_dragActive false s)),
       ([Ui.PreventDefault; Ui.StopPropagation; Ui.SetDragActive false]
          ++ map Ui.Page
               (Eff.events (Gallery.handleFileUpload net (Some files)
                              (with_dragActive false s))))%list)).
  { unfold Ui.handleDrop, Ui.setDragActive, Eff.bind, Eff.emit, Eff.modify,
      Eff.async, Eff.ret.
    fold (with_dragActive false s). rewrite lift_run.
    cbn [app]. now rewrite app_nil_r. }
  rewrite Hrun. unfold Eff.outcome, Eff.final, Eff.events; cbn [fst snd].
  repeat split.
  destruct (handleFileUpload_total_frame net (Some files) (with_dragActive false s))
    as (_ & _ & Hd & _).
  unfold Eff.final in Hd. rewrite Hd. reflexivity.
Qed.

(** ** Copying a url *)

(** X15.  [copyToClipboard] never changes the page state.  When the
    clipboard takes the text it shows one alert and touches nothing else.
    When there is no [navigator.clipboard] (no [writeText] call is made
    then) or when [writeText] fails, it logs the error and goes through a
    text area that it appends, selects and removes again, and if
    [execCommand] returns, with [true] or with [false], it shows the same
    "URL copied to clipboard!" alert.  If [execCommand] throws, the handler
    throws too: the text area stays in the document and no alert is
    shown. *)
Theorem copyToClipboard_spec (browser : Ui.Browser) (url : string)
    (s : Gallery.PageState) :
  Eff.final (Ui.copyToClipboard browser url s) = s /\
  (forall writeText,
      Ui.clipboard browser = Some writeText -> writeText url = inr tt ->
      Ui.copyToClipboard browser url s
      = (inr tt, s,
         [Ui.ClipboardWriteText url;
          Ui.Page (Gallery.Alert "URL copied to clipboard!")])) /\
  (forall attempt e,
      (Ui.clipboard browser = None /\ attempt = [] /\
       e = Err "Cannot read properties of undefined (reading 'writeText')") \/
      (exists writeText,
          Ui.clipboard browser = Some writeText /\ writeText url = inl e /\
          attempt = [Ui.ClipboardWriteText url]) ->
      (forall copied,
          Ui.execCommand browser "copy" = inr copied ->
          Ui.copyToClipboard browser url s
          = (inr tt, s,
             (attempt ++
              [Ui.Page (Gallery.ConsoleError "Copy failed:" e);
               Ui.CreateTextArea;
               Ui.SetTextAreaValue url;
               Ui.AppendChild;
               Ui.SelectTextArea;
               Ui.ExecCommand "copy";
               Ui.RemoveChild;
               Ui.Page (Gallery.Alert "URL copied to clipboard!")])%list)) /\
      (forall x,
          Ui.execCommand browser "copy" = inl x ->
          Ui.copyToClipboard browser url s
          = (inl x, s,
             (attempt ++
              [Ui.Page (Gallery.ConsoleError "Copy failed:" e);
               Ui.CreateTextArea;
               Ui.SetTextAreaValue url;
               Ui.AppendChild;
               Ui.SelectTextArea;
               Ui.ExecCommand "copy"])%list))).
Proof.
  unfold Ui.copyToClipboard, Eff.try_catch, Eff.bind, Eff.emit, Eff.await,
    Eff.throw, Eff.ret, Ui.lift, Gallery.alert, Gallery.console_error,
    Eff.emit, Eff.final.
  destruct (Ui.clipboard browser) as [w|].
  - destruct (w url) as [e|[]] eqn:Hw.
    + destruct (Ui.execCommand browser "copy") as [x|copied];
        cbn [fst snd app map];
        (split; [reflexivity|]);
        (split; [intros w' H1 H2; inversion H1; subst; congruence|]);
        intros attempt e' [(H & _) | (w' & H1 & H2 & ->)];
        try discriminate H;
        inversion H1; subst w'; rewrite Hw in H2; inversion H2; subst e';
        split; intros ? H3; inversion H3; reflexivity.
    + cbn [fst snd app map].
      split; [reflexivity|]. split; [reflexivity|].
      intros attempt e' [(H & _) | (w' & H1 & H2 & _)];
        [discriminate H|].
      inversion H1; subst w'. rewrite Hw in H2. discriminate H2.
  - destruct (Ui.execCommand browser "copy") as [x|copied];
      cbn [fst snd app map];
      (split; [reflexivity|]);
      (split; [intros w' H1; discriminate H1|]);
      intros attempt e' [(_ & -> & ->) | (w' & H1 & _)];
      try discriminate H1;
      split; intros ? H3; inversion H3; reflexivity.
Qed.

Lemma copyToClipboard_spec_witness :
  Ui.copyToClipboard no_clipboard_browser "https://res.example/gallery/a"
    Gallery.initialState
  = (inr tt, Gallery.initialState,
     [Ui.Page (Gallery.ConsoleError "Copy failed:"
                 (Err "Cannot read properties of undefined (reading 'writeText')"));
      Ui.CreateTextArea;
      Ui.SetTextAreaValue "https://res.example/gallery/a";
      Ui.AppendChild;
      Ui.SelectTextArea;
      Ui.ExecCommand "copy";
      Ui.RemoveChild;
      Ui.Page (Gallery.Alert "URL copied to clipboard!")]) /\
  Ui.copyToClipboard refusing_clipboard_browser "https://res.example/gallery/a"
    Gallery.initialState
  = (inr tt, Gallery.initialState,
     [Ui.ClipboardWriteText "https://res.example/gallery/a";
      Ui.Page (Gallery.ConsoleError "Copy failed:" (Err "NotAllowedError"));
      Ui.CreateTextArea;
      Ui.SetTextAreaValue "https://res.example/gallery/a";
      Ui.AppendChild;
      Ui.SelectTextArea;
      Ui.ExecCommand "copy";
      Ui.RemoveChild;
      Ui.Page (Gallery.Alert "URL copied to clipboard!")]).
Proof.
  split.
  - exact (proj1 (proj2 (proj2 (copyToClipboard_spec no_clipboard_browser
                                  "https://res.example/gallery/a"
                                  Gallery.initialState))
                   [] _ (or_introl (conj eq_refl (conj eq_refl eq_refl))))
             false eq_refl).
  - exact (proj1 (proj2 (proj2 (copyToClipboard_spec refusing_clipboard_browser
                                  "https://res.example/gallery/a"
                                  Gallery.initialState))
                   [Ui.ClipboardWriteText "https://res.example/gallery/a"]
                   (Err "NotAllowedError")
                   (or_intror (ex_intro _ (fun _ => inl (Err "NotAllowedError"))
                                 (conj eq_refl (conj eq_refl eq_refl)))))
             false eq_refl).
Defined.

(** ** What a render shows *)

Lemma filteredImages_empty_term (toLowerCase : string -> string)
    (s : Gallery.PageState) :
  toLowerCase "" = "" -> Gallery.searchTerm s = "" ->
  Gallery.filteredImages toLowerCase s = Gallery.images s.
Proof.
  intros Hlow Hterm. unfold Gallery.filteredImages. rewrite Hterm.
  induction (Gallery.images s) as [|img l IH]; [reflexivity|].
  cbn [filter]. unfold Gallery.matchesSearch at 1.
  rewrite Hlow, includes_empty. cbn [orb]. now rewrite IH.
Qed.

Lemma filter_length_le {A : Type} (f : A -> bool) (l : list A) :
  (length (filter f l) <= length l)%nat.
Proof.
  induction l as [|x l IH]; simpl; [auto|].
  destruct (f x); simpl; lia.
Qed.

(** X16.  In every render the gallery block and the empty-state block are
    never shown together, and neither is shown while [loading]; once
    neither [loading] nor [uploading] is on, exactly one of them is shown.
    The heading never counts more shown images than there are, the images
    shown are among the image set, and "No images match your search" stands
    in for the cards exactly when the gallery is shown and the filter keeps
    nothing. *)
Theorem render_blocks (toLowerCase : string -> string) (s : Gallery.PageState) :
  Ui.show_gallery (Ui.render toLowerCase s)
    && Ui.show_empty_state (Ui.render toLowerCase s) = false /\
  (Ui.show_loading (Ui.render toLowerCase s) = true ->
   Ui.show_gallery (Ui.render toLowerCase s) = false /\
   Ui.show_empty_state (Ui.render toLowerCase s) = false) /\
  (Gallery.loading s = false -> Gallery.uploading s = false ->
   xorb (Ui.show_gallery (Ui.render toLowerCase s))
        (Ui.show_empty_state (Ui.render toLowerCase s)) = true) /\
  (Ui.shown_count (Ui.render toLowerCase s)
   <= Ui.total_count (Ui.render toLowerCase s))%nat /\
  (forall img, In img (Ui.shown_images (Ui.render toLowerCase s)) ->
               In img (Gallery.images s)) /\
  (Ui.show_no_match (Ui.render toLowerCase s) = true <->
   Ui.show_gallery (Ui.render toLowerCase s) = true /\
   Gallery.filteredImages toLowerCase s = []).
Proof.
  unfold Ui.render;
    cbn [Ui.show_gallery Ui.show_empty_state Ui.show_loading Ui.shown_count
         Ui.total_count Ui.shown_images Ui.show_no_match].
  split; [|split; [|split; [|split; [|split]]]].
  - destruct (Gallery.loading s), (Gallery.images s), (Gallery.uploading s);
      reflexivity.
  - intros ->. split; reflexivity.
  - intros -> ->. destruct (Gallery.images s); reflexivity.
  - apply filter_length_le.
  - intros img.
    destruct (negb (Gallery.loading s) && Nat.ltb 0 (length (Gallery.images s)));
      [|intros []].
    unfold Gallery.filteredImages. rewrite filter_In. tauto.
  - destruct (negb (Gallery.loading s) && Nat.ltb 0 (length (Gallery.images s)));
      destruct (Gallery.filteredImages toLowerCase s); cbn;
      split; try discriminate; try tauto; intros [H1 H2]; discriminate.
Qed.

Lemma render_blocks_witness :
  Ui.show_gallery (Ui.render toLowerCase_ascii Gallery.initialState) = false /\
  Ui.show_empty_state (Ui.render toLowerCase_ascii Gallery.initialState) = false /\
  xorb (Ui.show_gallery (Ui.render toLowerCase_ascii (loaded [] Gallery.initialState)))
       (Ui.show_empty_state
          (Ui.render toLowerCase_ascii (loaded [] Gallery.initialState))) = true.
Proof.
  destruct (render_blocks toLowerCase_ascii Gallery.initialState)
    as (_ & Hload & _).
  destruct (render_blocks toLowerCase_ascii (loaded [] Gallery.initialState))
    as (_ & _ & Hone & _).
  destruct (Hload eq_refl) as [H1 H2].
  split; [exact H1|]. split; [exact H2|]. exact (Hone eq_refl eq_refl).
Defined.

(** X17.  With an empty search box nothing is filtered away: the heading
    counts every image, the "No images match your search" message is never
    shown, and a shown gallery shows the whole image set in order. *)
Theorem render_empty_search (toLowerCase : string -> string)
    (s : Gallery.PageState) :
  toLowerCase "" = "" ->
  Gallery.searchTerm s = "" ->
  Ui.shown_count (Ui.render toLowerCase s) = length (Gallery.images s) /\
  Ui.show_no_match (Ui.render toLowerCase s) = false /\
  (Ui.show_gallery (Ui.render toLowerCase s) = true ->
   Ui.shown_images (Ui.render toLowerCase s) = Gallery.images s).
Proof.
  intros Hlow Hterm. unfold Ui.render;
    cbn [Ui.show_gallery Ui.shown_count Ui.shown_images Ui.show_no_match].
  rewrite (filteredImages_empty_term toLowerCase s Hlow Hterm).
  split; [reflexivity|]. split.
  - destruct (Gallery.loading s), (Gallery.images s); reflexivity.
  - intros ->. reflexivity.
Qed.

Lemma render_empty_search_witness :
  Ui.shown_count
    (Ui.render toLowerCase_ascii
       (Gallery.mkPageState [sample_image "gallery/cat" "Cat.PNG"]
          false false false Gallery.grid "")) = 1%nat /\
  Ui.show_no_match
    (Ui.render toLowerCase_ascii
       (Gallery.mkPageState [sample_image "gallery/cat" "Cat.PNG"]
          false false false Gallery.grid "")) = false.
Proof.
  destruct (render_empty_search toLowerCase_ascii
              (Gallery.mkPageState [sample_image "gallery/cat" "Cat.PNG"]
                 false false false Gallery.grid "") eq_refl eq_refl)
    as (H1 & H2 & _).
  split; assumption.
Defined.

(** X18.  After the effect run on mount the loading block is gone.  If the
    list request gave at least one image, the gallery is shown with every
    listed image, formatted, in the order of the answer; if it gave none or
    failed, the empty state is shown instead. *)
Theorem mount_view (toLowerCase : string -> string) (net : Gallery.Network) :
  toLowerCase "" = "" ->
  Ui.show_loading (Ui.render toLowerCase (fst (Ui.mount net))) = false /\
  (forall img imgs,
      Gallery.net_images net
      = inr (Gallery.mkListResponse true (inr (img :: imgs))) ->
      Ui.show_gallery (Ui.render toLowerCase (fst (Ui.mount net))) = true /\
      Ui.show_empty_state (Ui.render toLowerCase (fst (Ui.mount net))) = false /\
      Ui.shown_images (Ui.render toLowerCase (fst (Ui.mount net)))
      = map Gallery.formatImage (img :: imgs)) /\
  (Gallery.net_images net = inr (Gallery.mkListResponse true (inr [])) \/
   (forall imgs,
       Gallery.net_images net <> inr (Gallery.mkListResponse true (inr imgs))) ->
   Ui.show_gallery (Ui.render toLowerCase (fst (Ui.mount net))) = false /\
   Ui.show_empty_state (Ui.render toLowerCase (fst (Ui.mount net))) = true).
Proof.
  intros Hlow. unfold Ui.mount; cbn [fst].
  destruct (fetchImages_cases net Gallery.initialState)
    as [(l & Hok & ->) | (e & Hbad & ->)]; unfold Eff.final; cbn [fst snd].
  - split; [reflexivity|]. split.
    + intros img imgs H. rewrite Hok in H. inversion H; subst.
      split; [reflexivity|]. split; [reflexivity|].
      unfold Ui.render; cbn [Ui.shown_images].
      rewrite (filteredImages_empty_term toLowerCase
                 (loaded (map Gallery.formatImage (img :: imgs)) Gallery.initialState)
                 Hlow eq_refl).
      reflexivity.
    + intros [H | H].
      * rewrite Hok in H. inversion H; subst. split; reflexivity.
      * destruct (H l Hok).
  - split; [reflexivity|]. split.
    + intros img imgs H. destruct (Hbad _ H).
    + intros _. split; reflexivity.
Qed.

Lemma mount_view_witness :
  Ui.show_gallery (Ui.render toLowerCase_ascii (fst (Ui.mount working_net))) = true /\
  Ui.shown_images (Ui.render toLowerCase_ascii (fst (Ui.mount working_net)))
  = [Gallery.formatImage (sample_descriptor "gallery/a" (Some "a"))] /\
  Ui.show_empty_state (Ui.render toLowerCase_ascii (fst (Ui.mount list_down_net)))
  = true.
Proof.
  destruct (proj1 (proj2 (mount_view toLowerCase_ascii working_net eq_refl))
              _ _ eq_refl) as (H1 & _ & H3).
  assert (Hdown : forall imgs,
             Gallery.net_images list_down_net
             <> inr (Gallery.mkListResponse true (inr imgs))).
  { intros imgs E. discriminate E. }
  destruct (proj2 (proj2 (mount_view toLowerCase_ascii list_down_net eq_refl))
              (or_intror Hdown)) as (_ & H5).
  split; [exact H1|]. split; [exact H3 | exact H5].
Defined.

(* ================================================================== *)
(** * Further properties of the routes *)
(* ================================================================== *)

(** ** The upload route *)

(** Every run of [POST], by what the request holds and what the store
    answers. *)
Lemma POST_cases (store : Server.Store) (request : Server.Request) :
  Server.POST store request tt =
  match Server.formData request with
  | inl e =>
      (inr (Server.mkResponse 500 (Server.BodyError "Upload failed")), tt,
       [Server.ConsoleError "Upload error:" e])
  | inr fd =>
      match Server.FormData_get fd "file" with
      | None =>
          (inr (Server.mkResponse 400 (Server.BodyError "No file provided")), tt, [])
      | Some (Server.EntryString text) =>
          if JS.truthy text
          then (inr (Server.mkResponse 500 (Server.BodyError "Upload failed")), tt,
                [Server.ConsoleError "Upload error:"
                   (Err "file.arrayBuffer is not a function")])
          else (inr (Server.mkResponse 400 (Server.BodyError "No file provided")),
                tt, [])
      | Some (Server.EntryFile f) =>
          match Server.store_upload store gallery_options (Server.file_contents f) with
          | Server.UploadThrows e =>
              (inr (Server.mkResponse 500 (Server.BodyError "Upload failed")), tt,
               [Server.StoreUpload gallery_options (Server.file_contents f);
                Server.ConsoleError "Upload error:" e])
          | Server.CallbackError e =>
              (inr (Server.mkResponse 500 (Server.BodyError "Upload failed")), tt,
               [Server.StoreUpload gallery_options (Server.file_contents f);
                Server.ConsoleError "Cloudinary error:" e;
                Server.ConsoleError "Upload error:" e])
          | Server.CallbackResult result =>
              (inr (Server.mkResponse 200
                      (Server.BodyDescriptor (uploaded_descriptor result))), tt,
               [Server.StoreUpload gallery_options (Server.file_contents f)])
          end
      end
  end.
Proof.
  unfold Server.POST, Eff.try_catch, Eff.bind, Eff.await.
  destruct (Server.formData request) as [e|fd]; [reflexivity|].
  unfold Eff.ret at 1.
  destruct (Server.FormData_get fd "file") as [[f|[|c text]]|]; try reflexivity.
  cbn [Server.not_file Server.arrayBuffer]. unfold Eff.ret at 1.
  unfold Server.upload_stream, Eff.bind, Eff.emit. fold gallery_options.
  destruct (Server.store_upload store gallery_options (Server.file_contents f));
    reflexivity.
Qed.

(** X19.  The upload route calls the store at most once per request, and
    only when the part named "file" is a file: always with resource type
    "auto" and folder "gallery", and with exactly the bytes of that file. *)
Theorem POST_store_calls (store : Server.Store) (request : Server.Request) :
  (length (filter is_store_upload (Eff.events (Server.POST store request tt))) <= 1)%nat /\
  (forall options buffer,
      In (Server.StoreUpload options buffer)
         (Eff.events (Server.POST store request tt)) ->
      options = Server.mkUploadOptions "auto" "gallery" /\
      exists fd f,
        Server.formData request = inr fd /\
        Server.FormData_get fd "file" = Some (Server.EntryFile f) /\
        buffer = Server.file_contents f).
Proof.
  rewrite POST_cases.
  destruct (Server.formData request) as [e|fd].
  { split; [cbn; auto|]. intros o b [H|[]]. discriminate H. }
  destruct (Server.FormData_get fd "file") as [[f|text]|] eqn:Hget.
  - destruct (Server.store_upload store gallery_options (Server.file_contents f));
      (split; [cbn; auto|]);
      intros o b H; cbn in H;
      repeat (destruct H as [H|H]; [try discriminate H|]); try contradiction;
      inversion H; subst; (split; [reflexivity|]); exists fd, f; auto.
  - destruct (JS.truthy text); (split; [cbn; auto|]).
    + intros o b [H|[]]. discriminate H.
    + intros o b [].
  - split; [cbn; auto|]. intros o b [].
Qed.

Lemma POST_store_calls_witness :
  In (Server.StoreUpload gallery_options (Server.file_contents png_part))
     (Eff.events (Server.POST working_store
                    (upload_request [("file", Server.EntryFile png_part)]) tt)) /\
  gallery_options = Server.mkUploadOptions "auto" "gallery" /\
  exists fd f,
    Server.formData (upload_request [("file", Server.EntryFile png_part)]) = inr fd /\
    Server.FormData_get fd "file" = Some (Server.EntryFile f) /\
    Server.file_contents png_part = Server.file_contents f.
Proof.
  assert (Hin : In (Server.StoreUpload gallery_options (Server.file_contents png_part))
                  (Eff.events (Server.POST working_store
                     (upload_request [("file", Server.EntryFile png_part)]) tt))).
  { left. reflexivity. }
  split; [exact Hin|].
  exact (proj2 (POST_store_calls working_store
                  (upload_request [("file", Server.EntryFile png_part)]))
           gallery_options (Server.file_contents png_part) Hin).
Defined.

(** X20.  When the part named "file" is a file and the store accepts it,
    the route answers 200 with the store's id, url, width, height, format,
    byte count and timestamp and without a file name; the store is called
    once and nothing is logged. *)
Theorem POST_success (store : Server.Store) (request : Server.Request)
    (fd : Server.FormData) (f : Server.File) (result : Descriptor) :
  Server.formData request = inr fd ->
  Server.FormData_get fd "file" = Some (Server.EntryFile f) ->
  Server.store_upload store (Server.mkUploadOptions "auto" "gallery")
    (Server.file_contents f) = Server.CallbackResult result ->
  Server.POST store request tt
  = (inr (Server.mkResponse 200
            (Server.BodyDescriptor
               (mkDescriptor (public_id result) (secure_url result)
                  (d_width result) (d_height result) (d_format result)
                  (d_bytes result) (created_at result) None))),
     tt,
     [Server.StoreUpload (Server.mkUploadOptions "auto" "gallery")
        (Server.file_contents f)]).
Proof.
  intros Hfd Hget Hok. rewrite POST_cases, Hfd, Hget.
  unfold gallery_options. rewrite Hok. reflexivity.
Qed.

Lemma POST_success_witness :
  Eff.outcome (Server.POST working_store
                 (upload_request [("file", Server.EntryFile png_part)]) tt)
  = inr (Server.mkResponse 200
           (Server.BodyDescriptor
              (mkDescriptor "gallery/a" "https://res.example/gallery/a" None None
                 (Some "png") (Some 10) "2024-01-01T00:00:00Z" None))).
Proof.
  rewrite (POST_success working_store
             (upload_request [("file", Server.EntryFile png_part)])
             [("file", Server.EntryFile png_part)] png_part
             (mkDescriptor "gallery/a" "https://res.example/gallery/a" None None
                (Some "png") (Some 10) "2024-01-01T00:00:00Z" (Some "a"))
             eq_refl eq_refl eq_refl).
  reflexivity.
Defined.

(** X21.  When the body of the request cannot be read as a form, the route
    answers 500 with [{error: "Upload failed"}], logs the error once, and
    does not reach the store. *)
Theorem POST_unreadable_form (store : Server.Store) (request : Server.Request)
    (e : Exn) :
  Server.formData request = inl e ->
  Server.POST store request tt
  = (inr (Server.mkResponse 500 (Server.BodyError "Upload failed")), tt,
     [Server.ConsoleError "Upload error:" e]).
Proof. intros H. rewrite POST_cases, H. reflexivity. Qed.

Lemma POST_unreadable_form_witness :
  Server.POST working_store (list_request []) tt
  = (inr (Server.mkResponse 500 (Server.BodyError "Upload failed")), tt,
     [Server.ConsoleError "Upload error:" (Err "no body")]).
Proof.
  exact (POST_unreadable_form working_store (list_request []) (Err "no body") eq_refl).
Defined.

(** X22.  A part named "file" that is text and not a file: an empty text
    is answered like a missing part, with 400; any other text makes the
    handler fail on [arrayBuffer] and is answered 500 [{error: "Upload
    failed"}]; the store is reached in neither case. *)
Theorem POST_text_entry (store : Server.Store) (request : Server.Request)
    (fd : Server.FormData) (text : string) :
  Server.formData request = inr fd ->
  Server.FormData_get fd "file" = Some (Server.EntryString text) ->
  (text = "" ->
   Server.POST store request tt
   = (inr (Server.mkResponse 400 (Server.BodyError "No file provided")), tt, [])) /\
  (text <> "" ->
   Server.POST store request tt
   = (inr (Server.mkResponse 500 (Server.BodyError "Upload failed")), tt,
      [Server.ConsoleError "Upload error:"
         (Err "file.arrayBuffer is not a function")])) /\
  filter is_store_upload (Eff.events (Server.POST store request tt)) = [].
Proof.
  intros Hfd Hget. rewrite POST_cases, Hfd, Hget.
  destruct text as [|c r]; cbn; repeat split; congruence.
Qed.

Lemma POST_text_entry_witness :
  Server.POST working_store
    (upload_request [("file", Server.EntryString "cat.png")]) tt
  = (inr (Server.mkResponse 500 (Server.BodyError "Upload failed")), tt,
     [Server.ConsoleError "Upload error:"
        (Err "file.arrayBuffer is not a function")]).
Proof.
  apply (proj1 (proj2 (POST_text_entry working_store
                         (upload_request [("file", Server.EntryString "cat.png")])
                         [("file", Server.EntryString "cat.png")] "cat.png"
                         eq_refl eq_refl))).
  discriminate.
Defined.

(** X23.  The upload route always answers and never throws.  The answer
    is 200 with a descriptor and an empty log, or 400 with "No file
    provided", an empty log and no store call, or 500 with "Upload failed"
    and the error in the log: every 500 is logged, and no other answer is. *)
Theorem POST_answers (store : Server.Store) (request : Server.Request) :
  exists response,
    Eff.outcome (Server.POST store request tt) = inr response /\
    ((Server.status response = 200 /\
      (exists d, Server.body response = Server.BodyDescriptor d /\
                 original_filename d = None) /\
      filter is_server_log (Eff.events (Server.POST store request tt)) = []) \/
     (Server.status response = 400 /\
      Server.body response = Server.BodyError "No file provided" /\
      Eff.events (Server.POST store request tt) = []) \/
     (Server.status response = 500 /\
      Server.body response = Server.BodyError "Upload failed" /\
      exists e, In (Server.ConsoleError "Upload error:" e)
                   (Eff.events (Server.POST store request tt)))).
Proof.
  rewrite POST_cases.
  destruct (Server.formData request) as [e|fd].
  { eexists; split; [reflexivity|]. right; right. cbn. eauto 6. }
  destruct (Server.FormData_get fd "file") as [[f|text]|].
  - destruct (Server.store_upload store gallery_options (Server.file_contents f))
      as [e|e|result]; eexists; (split; [reflexivity|]).
    + right; right. cbn. eauto 8.
    + right; right. cbn. eauto 8.
    + left. cbn. eauto 6.
  - destruct (JS.truthy text); eexists; (split; [reflexivity|]).
    + right; right. cbn. eauto 6.
    + right; left. cbn. auto.
  - eexists; split; [reflexivity|]. right; left. cbn. auto.
Qed.

(** ** The list route *)

(** X24.  The list route always answers and never throws.  It answers 200
    with one descriptor per resource and the store's count, logging
    nothing, exactly when the search succeeds; when the search fails it
    answers 500 with [{error: "Failed to fetch images"}] and logs the error
    once.  Either way the store is searched once and never written to. *)
Theorem GET_answers (store : Server.Store) (request : Server.Request) :
  (forall result,
      Server.store_search store
        (Server.mkSearch ("folder:" ++ Server.folder_of request ++ "/*")
           [("created_at", "desc")] (Some 500)) = inr result ->
      Server.GET store request tt
      = (inr (Server.mkResponse 200
                (Server.BodyImages (map Server.normalize (Server.resources result))
                   (Server.total_count result))),
         tt,
         [Server.StoreSearch
            (Server.mkSearch ("folder:" ++ Server.folder_of request ++ "/*")
               [("created_at", "desc")] (Some 500))])) /\
  (forall e,
      Server.store_search store
        (Server.mkSearch ("folder:" ++ Server.folder_of request ++ "/*")
           [("created_at", "desc")] (Some 500)) = inl e ->
      Server.GET store request tt
      = (inr (Server.mkResponse 500 (Server.BodyError "Failed to fetch images")),
         tt,
         [Server.StoreSearch
            (Server.mkSearch ("folder:" ++ Server.folder_of request ++ "/*")
               [("created_at", "desc")] (Some 500));
          Server.ConsoleError "Fetch images error:" e])) /\
  (exists response, Eff.outcome (Server.GET store request tt) = inr response) /\
  length (filter is_store_search (Eff.events (Server.GET store request tt))) = 1%nat /\
  filter is_store_upload (Eff.events (Server.GET store request tt)) = [].
Proof.
  rewrite GET_run. fold (folder_search (Server.folder_of request)).
  destruct (Server.store_search store (folder_search (Server.folder_of request)))
    as [e|result]; repeat split; try (intros ? H; inversion H; subst; reflexivity);
    try (intros ? H; discriminate H); eexists; reflexivity.
Qed.

Lemma GET_answers_witness :
  Server.GET (Server.mkStore (fun _ _ => Server.UploadThrows (Err "down"))
      (fun _ => inl (Err "down")))
    (list_request []) tt
  = (inr (Server.mkResponse 500 (Server.BodyError "Failed to fetch images")),
     tt,
     [Server.StoreSearch
        (Server.mkSearch "folder:gallery/*" [("created_at", "desc")] (Some 500));
      Server.ConsoleError "Fetch images error:" (Err "down")]).
Proof.
  exact (proj1 (proj2 (GET_answers
                         (Server.mkStore (fun _ _ => Server.UploadThrows (Err "down"))
                            (fun _ => inl (Err "down")))
                         (list_request []))) (Err "down") eq_refl).
Defined.

Lemma URLSearchParams_get_first (pre post : list (string * string))
    (name value : string) :
  (forall v, ~ In (name, v) pre) ->
  Server.URLSearchParams_get (pre ++ (name, value) :: post) name = Some value.
Proof.
  induction pre as [|[k v] pre IH]; intros Hpre; simpl.
  - now rewrite String.eqb_refl.
  - destruct (String.eqb_spec k name) as [->|_].
    + destruct (Hpre v). now left.
    + apply IH. intros w Hin. apply (Hpre w). now right.
Qed.

(** X25.  A non-empty [folder] query parameter is used as it is, with
    nothing removed or escaped, in the search expression
    [folder:<folder>/*]; when the parameter occurs more than once the first
    occurrence counts. *)
Theorem GET_given_folder (store : Server.Store) (request : Server.Request)
    (pre post : list (string * string)) (folder : string) :
  Server.searchParams request = (pre ++ ("folder", folder) :: post)%list ->
  (forall v, ~ In ("folder", v) pre) ->
  folder <> "" ->
  Server.folder_of request = folder /\
  exists rest,
    Eff.events (Server.GET store request tt)
    = Server.StoreSearch
        (Server.mkSearch ("folder:" ++ folder ++ "/*")
           [("created_at", "desc")] (Some 500))
      :: rest.
Proof.
  intros Hps Hpre Hne.
  assert (Hf : Server.folder_of request = folder).
  { unfold Server.folder_of.
    rewrite Hps, (URLSearchParams_get_first pre post "folder" folder Hpre).
    now apply or_else_present. }
  split; [exact Hf|].
  rewrite GET_run, Hf. unfold folder_search.
  destruct (Server.store_search store _); eexists; reflexivity.
Qed.

Lemma GET_given_folder_witness :
  Server.folder_of
    (list_request [("page", "2"); ("folder", "pets/../private");
                   ("folder", "gallery")])
  = "pets/../private" /\
  exists rest,
    Eff.events
      (Server.GET working_store
         (list_request [("page", "2"); ("folder", "pets/../private");
                        ("folder", "gallery")]) tt)
    = Server.StoreSearch
        (Server.mkSearch "folder:pets/../private/*"
           [("created_at", "desc")] (Some 500))
      :: rest.
Proof.
  apply (GET_given_folder working_store
           (list_request [("page", "2"); ("folder", "pets/../private");
                          ("folder", "gallery")])
           [("page", "2")] [("folder", "gallery")] "pets/../private" eq_refl).
  - intros v [H|[]]. discriminate H.
  - discriminate.
Defined.

(** X26.  The descriptor the list route builds always carries a file name,
    which is empty only when the store has no usable name and the public id
    is empty as well; building it again from its own result changes
    nothing. *)
Theorem normalize_idempotent (resource : Descriptor) :
  Server.normalize (Server.normalize resource) = Server.normalize resource /\
  exists n,
    original_filename (Server.normalize resource) = Some n /\
    (n = "" ->
     public_id resource = "" /\
     (original_filename resource = None \/ original_filename resource = Some "")).
Proof.
  unfold Server.normalize; cbn [public_id secure_url d_width d_height d_format
    d_bytes created_at original_filename].
  destruct (original_filename resource) as [[|c r]|] eqn:E; cbn [JS.or_else JS.truthy].
  - split.
    + destruct (public_id resource); reflexivity.
    + eexists; split; [reflexivity|]. intros ->. auto.
  - split; [reflexivity|]. eexists; split; [reflexivity|]. discriminate.
  - split.
    + destruct (public_id resource); reflexivity.
    + eexists; split; [reflexivity|]. intros ->. auto.
Qed.

Lemma normalize_idempotent_witness :
  Server.normalize (Server.normalize (sample_descriptor "gallery/a" None))
  = Server.normalize (sample_descriptor "gallery/a" None) /\
  original_filename (Server.normalize (sample_descriptor "gallery/a" None))
  = Some "gallery/a".
Proof.
  split.
  - exact (proj1 (normalize_idempotent (sample_descriptor "gallery/a" None))).
  - reflexivity.
Defined.

(** ** The size text once more *)

Lemma hundredths_starts_with_digit (h : N) :
  exists c r, JS.hundredths_toString h = String c r /\ c <> "U"%char.
Proof.
  unfold JS.hundredths_toString. cbv zeta.
  destruct (decimal_starts_with_digit (h / 100)) as (c & r & E & Hc).
  destruct (h mod 100 =? 0); [eauto|].
  destruct ((h mod 100) mod 10 =? 0); rewrite E; simpl; eauto.
Qed.

(** X27.  [formatFileSize] answers "Unknown" exactly for a missing byte
    count and for 0, and it answers "0 Byte" for no argument at all: the
    test for 0 comes after the test that already returns for 0. *)
Theorem formatFileSize_Unknown_iff (bytes : option N) :
  (Gallery.formatFileSize bytes = "Unknown" <-> bytes = None \/ bytes = Some 0) /\
  Gallery.formatFileSize bytes <> "0 Byte".
Proof.
  split; [|apply formatFileSize_never_0_Byte].
  destruct bytes as [b|]; [|split; auto].
  unfold Gallery.formatFileSize.
  destruct (N.eqb_spec b 0) as [->|Hb]; [split; auto|].
  cbv zeta. split.
  - intros H. exfalso.
    destruct (hundredths_starts_with_digit
                (JS.round_hundredths b (JS.floor_log1024 b))) as (c & r & E & Hc).
    rewrite E in H. simpl in H. congruence.
  - intros [H|H]; [discriminate H | congruence].
Qed.
